(** * safe-react: deployment resolution, token selectors and analytics

    A shallow embedding of three source files of the Safe web client:

    - [src/logic/contracts/safeContracts.ts]   (module [SafeContracts])
    - [src/utils/googleTagManager.ts]          (module [GoogleTagManager])
    - the safe selectors file                  (module [SafeSelectors])

    JavaScript values are embedded as follows.  A value that may be
    [undefined] is an [option]; strings are [string]; a plain object used
    as a dictionary is a [gmap string _]; an Immutable [Map] is a
    [gmap string _] as well; arrays are lists.  Code that throws, or whose
    calls to a library are observable, lives in a small trace-and-outcome
    monad.  Whatever the three files import from elsewhere (the deployment
    registry, the semver matcher, the chain configuration, the router's
    path matcher ...) is a [Variable] of the enclosing [Section]. *)

From Stdlib Require Import String Ascii List Bool Arith.
From Stdlib Require Import Floats.SpecFloat.
From stdpp Require Import base option list strings gmap.

Local Open Scope string_scope.
Local Open Scope list_scope.

(** ** JavaScript preliminaries *)

Module Js.

(** Truthiness of a string: only the empty string is falsy. *)
Definition truthyString (s : string) : bool :=
  match s with
  | EmptyString => false
  | String _ _ => true
  end.

(** Truthiness of [string | undefined]. *)
Definition truthy (v : option string) : bool :=
  match v with
  | Some s => truthyString s
  | None => false
  end.

(** A thrown (or rejected-with) value.  [err_log] tells whether the value
    carries a callable [log] method; the built-in [Error] and [TypeError]
    do not. *)
Record ErrorValue := mkErrorValue {
  err_name : string;
  err_message : string;
  err_log : bool
}.

Definition Error (message : string) : ErrorValue :=
  mkErrorValue "Error" message false.

Definition TypeError (message : string) : ErrorValue :=
  mkErrorValue "TypeError" message false.

(** How a call ends: by returning or by throwing.  For an [async]
    function, [Returned] is a fulfilled promise and [Thrown] a rejected
    one. *)
Inductive Outcome (A : Type) : Type :=
| Returned (a : A)
| Thrown (e : ErrorValue).

Arguments Returned {A} a.
Arguments Thrown {A} e.

Definition isThrown {A : Type} (o : Outcome A) : bool :=
  match o with
  | Returned _ => false
  | Thrown _ => true
  end.

(** A computation that leaves a trace of events of type [E]. *)
Definition M (E A : Type) : Type := (list E * Outcome A)%type.

Definition ret {E A : Type} (a : A) : M E A := ([], Returned a).

Definition throw {E A : Type} (e : ErrorValue) : M E A := ([], Thrown e).

Definition emit {E : Type} (ev : E) : M E unit := ([ev], Returned tt).

Definition bind {E A B : Type} (m : M E A) (k : A -> M E B) : M E B :=
  match m with
  | (t, Returned a) => let '(t', o) := k a in (t ++ t', o)
  | (t, Thrown e) => (t, Thrown e)
  end.

Definition trace {E A : Type} (m : M E A) : list E := fst m.

Definition outcome {E A : Type} (m : M E A) : Outcome A := snd m.

(** [await p] for a promise that is settled with [o]. *)
Definition await {E A : Type} (o : Outcome A) : M E A := ([], o).

(** [try { body } catch (e) { handler e }] *)
Definition tryCatch {E A : Type} (body : M E A) (handler : ErrorValue -> M E A) : M E A :=
  match body with
  | (t, Returned a) => (t, Returned a)
  | (t, Thrown e) => let '(t', o) := handler e in (t ++ t', o)
  end.

(** [a || b] on values that are objects or [undefined]: [b] is evaluated
    only when [a] is [undefined]. *)
Definition orElse {E A : Type} (a b : M E (option A)) : M E (option A) :=
  bind a (fun r => match r with Some _ => ret r | None => b end).

(** [s.replace(pattern, replacement)] with a string pattern: the first
    occurrence of [pattern] in [s] is replaced; an empty pattern matches at
    index 0.  The replacement is taken literally, which is what JavaScript
    does for a replacement without a dollar sign. *)
Fixpoint replace (pattern replacement s : string) : string :=
  if String.prefix pattern s
  then replacement +:+ String.substring (String.length pattern)
                         (String.length s - String.length pattern) s
  else match s with
       | EmptyString => EmptyString
       | String c s' => String c (replace pattern replacement s')
       end.

(** [pattern] does not occur in [pre +:+ rest] at an index below the
    length of [pre]. *)
Fixpoint firstAt (pattern pre rest : string) : bool :=
  match pre with
  | EmptyString => true
  | String c pre' =>
      negb (String.prefix pattern (String c (pre' +:+ rest))) && firstAt pattern pre' rest
  end.

Lemma prefix_append (pattern rest : string) :
  String.prefix pattern (pattern +:+ rest) = true.
Proof.
  induction pattern as [|c pattern IH]; simpl.
  - destruct rest; reflexivity.
  - destruct (Ascii.ascii_dec c c); [exact IH | contradiction].
Qed.

Lemma substring_append (pattern rest : string) :
  String.substring (String.length pattern)
    (String.length (pattern +:+ rest) - String.length pattern) (pattern +:+ rest) = rest.
Proof.
  induction pattern as [|c pattern IH]; simpl.
  - rewrite Nat.sub_0_r. induction rest as [|d rest IHr]; simpl; [reflexivity|].
    f_equal. exact IHr.
  - exact IH.
Qed.

Lemma replace_unfold (pattern replacement s : string) :
  replace pattern replacement s
  = if String.prefix pattern s
    then replacement +:+ String.substring (String.length pattern)
                           (String.length s - String.length pattern) s
    else match s with
         | EmptyString => EmptyString
         | String c s' => String c (replace pattern replacement s')
         end.
Proof. destruct s; reflexivity. Qed.

Lemma replace_prefix (pattern replacement rest : string) :
  replace pattern replacement (pattern +:+ rest) = replacement +:+ rest.
Proof.
  rewrite replace_unfold, prefix_append, substring_append. reflexivity.
Qed.

(** [replace] rewrites the first occurrence and nothing else. *)
Lemma replace_firstAt (pattern replacement pre rest : string) :
  firstAt pattern pre (pattern +:+ rest) = true ->
  replace pattern replacement (pre +:+ pattern +:+ rest) = pre +:+ replacement +:+ rest.
Proof.
  induction pre as [|c pre IH]; intros H.
  - exact (replace_prefix pattern replacement rest).
  - change (firstAt pattern (String c pre) (pattern +:+ rest))
      with (negb (String.prefix pattern (String c (pre +:+ pattern +:+ rest)))
            && firstAt pattern pre (pattern +:+ rest)) in H.
    apply andb_prop in H as [Hc Hrest].
    apply negb_true_iff in Hc.
    change (String c pre +:+ pattern +:+ rest) with (String c (pre +:+ pattern +:+ rest)).
    rewrite replace_unfold, Hc.
    change (String c pre +:+ replacement +:+ rest)
      with (String c (pre +:+ replacement +:+ rest)).
    f_equal. apply IH. exact Hrest.
Qed.

End Js.

Module JsNotations.
Notation "'do' x <- m ; k" := (Js.bind m (fun x => k))
  (at level 10, x name, m at level 100, k at level 200).
Notation "'run' m ; k" := (Js.bind m (fun _ => k))
  (at level 10, m at level 100, k at level 200).
Infix "|||" := Js.orElse (at level 50, left associativity).
End JsNotations.

Import JsNotations.

(** ** src/logic/contracts/safeContracts.ts *)

Module SafeContracts.
Import Js.

Definition ChainId := string.

(** The part of a chain's configuration this file reads. *)
Record ChainInfo := mkChainInfo {
  chainId : ChainId;
  l2 : bool
}.

Definition Abi := list string.

(** A deployment descriptor of the safe-deployments registry. *)
Record SingletonDeployment := mkDeployment {
  contractName : string;
  dversion : string;
  released : bool;
  abi : Abi;
  networkAddresses : gmap string string
}.

(** The argument of a registry getter.  A getter called without argument
    receives the filter with no constraint. *)
Record DeploymentFilter := mkFilter {
  version : option string;
  network : option string
}.

Definition noFilter : DeploymentFilter := mkFilter None None.

(** The registry's tables, one per getter the file imports. *)
Inductive DeploymentTable :=
| SafeSingleton
| SafeL2Singleton
| ProxyFactory
| FallbackHandler
| MultiSendCallOnly
| SignMessageLib.

(** What the file does to the outside world: calls of registry getters,
    console output, and a call of the [log] method of a caught value. *)
Inductive Event :=
| RegistryLookup (t : DeploymentTable) (f : DeploymentFilter)
| ConsoleLog (d : option SingletonDeployment)
| ConsoleError (message : string)
| LogMethodCalled (e : ErrorValue).

(** The tables of the registry lookups of a trace, in order. *)
Definition lookupTables (tr : list Event) : list DeploymentTable :=
  omap (fun ev => match ev with RegistryLookup t _ => Some t | _ => None end) tr.

(** A contract object that [new web3.eth.Contract(abi, address)] has
    created, recorded by the arguments it was created from.  (web3 keeps
    the address in checksum case; the record keeps it as it was given.) *)
Record ContractInstance := mkContract {
  jsonInterface : option Abi;
  options_address : option string
}.

(** [new web3.eth.Contract(jsonInterface, address)]: web3 refuses to
    create a contract without a JSON interface and throws.  (web3 also
    checks the format of the address; that check is not modelled.) *)
Definition newContract (jsonInterface : option Abi) (address : option string)
  : M Event ContractInstance :=
  match jsonInterface with
  | Some _ => ret (mkContract jsonInterface address)
  | None =>
      throw (Error
        "You must provide the json interface of the contract when instantiating a contract object.")
  end.

Record SafeInfo := mkSafeInfo {
  implementation_value : option string
}.

Section WithEnvironment.

(** The registry of [@gnosis.pm/safe-deployments]. *)
Variable deployments : DeploymentTable -> DeploymentFilter -> option SingletonDeployment.
(** [semver/functions/satisfies]. *)
Variable semverSatisfies : string -> string -> bool.
(** [src/config]: the current chain and the chain table. *)
Variable _getChainId : ChainId.
Variable getChainById : ChainId -> ChainInfo.
(** [src/utils/constants]. *)
Variable LATEST_SAFE_VERSION : string.
(** [src/logic/safe/utils/safeInformation]. *)
Variable getSafeInfo : string -> Outcome SafeInfo.

Definition lookupDeployment (t : DeploymentTable) (f : DeploymentFilter)
  : M Event (option SingletonDeployment) :=
  run emit (RegistryLookup t f); ret (deployments t f).

Definition getSafeSingletonDeployment := lookupDeployment SafeSingleton.
Definition getSafeL2SingletonDeployment := lookupDeployment SafeL2Singleton.
Definition getProxyFactoryDeployment := lookupDeployment ProxyFactory.
Definition getFallbackHandlerDeployment := lookupDeployment FallbackHandler.
Definition getMultiSendCallOnlyDeployment := lookupDeployment MultiSendCallOnly.
Definition getSignMessageLibDeployment := lookupDeployment SignMessageLib.

Definition getSafeContractDeployment (safeVersion : string)
  : M Event (option SingletonDeployment) :=
  let useOldestContractVersion := semverSatisfies safeVersion "<1.0.0" in
  let networkId := _getChainId in
  let chainConfig := getChainById networkId in
  let useL2ContractVersion := l2 chainConfig && semverSatisfies safeVersion ">=1.3.0" in
  let getDeployment :=
    if useL2ContractVersion then getSafeL2SingletonDeployment else getSafeSingletonDeployment in
  getDeployment (mkFilter (Some safeVersion) (Some networkId))
  ||| getDeployment (mkFilter (Some safeVersion) None)
  ||| (if useOldestContractVersion
       then getDeployment (mkFilter (Some "1.0.0") None)
       else ret None).

(** [deployment?.networkAddresses[chainId]] *)
Definition networkAddressOf (deployment : option SingletonDeployment) (chainId : ChainId)
  : option string :=
  d ← deployment; networkAddresses d !! chainId.

Definition getGnosisSafeContractInstance (chainId : ChainId) : M Event ContractInstance :=
  do safeSingletonDeployment <- getSafeContractDeployment LATEST_SAFE_VERSION;
  let contractAddress := networkAddressOf safeSingletonDeployment chainId in
  let contractAddress :=
    if negb (truthy contractAddress)
    then Some "0x4f9b1def3a0f6747bf8c870a27d3decdf029100e"
    else contractAddress in
  newContract (abi <$> safeSingletonDeployment) contractAddress.

Definition getProxyFactoryContractInstance (chainId : ChainId) : M Event ContractInstance :=
  do proxyFactoryDeployment <-
    getProxyFactoryDeployment (mkFilter (Some LATEST_SAFE_VERSION) (Some chainId))
    ||| getProxyFactoryDeployment (mkFilter (Some LATEST_SAFE_VERSION) None);
  let contractAddress := networkAddressOf proxyFactoryDeployment chainId in
  let contractAddress :=
    if negb (truthy contractAddress)
    then Some "0x4f9b1def3a0f6747bf8c870a27d3decdf029100e"
    else contractAddress in
  newContract (abi <$> proxyFactoryDeployment) contractAddress.

Definition getFallbackHandlerContractInstance (chainId : ChainId) : M Event ContractInstance :=
  do fallbackHandlerDeployment <-
    getFallbackHandlerDeployment (mkFilter (Some LATEST_SAFE_VERSION) (Some chainId))
    ||| getFallbackHandlerDeployment (mkFilter (Some LATEST_SAFE_VERSION) None);
  let contractAddress := networkAddressOf fallbackHandlerDeployment chainId in
  let contractAddress :=
    if negb (truthy contractAddress)
    then Some "0xC5d654bcE1220241FCe1f0F1D6b9E04f75175452"
    else contractAddress in
  newContract (abi <$> fallbackHandlerDeployment) contractAddress.

Definition getMultiSendContractInstance (chainId : ChainId) : M Event ContractInstance :=
  do multiSendDeployment <-
    getMultiSendCallOnlyDeployment (mkFilter None (Some chainId))
    ||| getMultiSendCallOnlyDeployment noFilter;
  let contractAddress := networkAddressOf multiSendDeployment chainId in
  let contractAddress :=
    if negb (truthy contractAddress)
    then Some "0xDEff67e9A02b4Ce60ff62F3CB5FFB41d48856285"
    else contractAddress in
  newContract (abi <$> multiSendDeployment) contractAddress.

Definition getSignMessageLibAddress (chainId : ChainId) : M Event (option string) :=
  do signMessageLibDeployment <-
    getSignMessageLibDeployment (mkFilter None (Some chainId))
    ||| getSignMessageLibDeployment noFilter;
  run emit (ConsoleLog signMessageLibDeployment);
  let contractAddress := networkAddressOf signMessageLibDeployment chainId in
  let contractAddress :=
    if String.eqb chainId "1666600000"
    then Some "0x1b02dA8Cb0d097eB8D57A175b88c7D8b47997506"
    else contractAddress in
  if negb (truthy contractAddress)
  then throw (Error ("SignMessageLib contract not found for chainId: " +:+ chainId))
  else ret contractAddress.

Definition getSignMessageLibContractInstance (chainId : ChainId) : M Event ContractInstance :=
  do signMessageLibDeployment <-
    getSignMessageLibDeployment (mkFilter None (Some chainId))
    ||| getSignMessageLibDeployment noFilter;
  let contractAddress := networkAddressOf signMessageLibDeployment chainId in
  let contractAddress :=
    if String.eqb chainId "1666600000"
    then Some "0x1b02dA8Cb0d097eB8D57A175b88c7D8b47997506"
    else contractAddress in
  if negb (truthy contractAddress)
  then throw (Error ("SignMessageLib contract not found for chainId: " +:+ chainId))
  else newContract (abi <$> signMessageLibDeployment) contractAddress.

(** [e.log()] on a caught value: a call when [e] has the method, a
    [TypeError] when it has not.  A [log] method that exists is taken to
    return normally. *)
Definition callLog (e : ErrorValue) : M Event unit :=
  if err_log e
  then emit (LogMethodCalled e)
  else throw (TypeError "e.log is not a function").

Definition getMasterCopyAddressFromProxyAddress (proxyAddress : string)
  : M Event (option string) :=
  do masterCopyAddress <-
    tryCatch
      (do res <- await (getSafeInfo proxyAddress);
       let masterCopyAddress := implementation_value res in
       if negb (truthy masterCopyAddress)
       then
         run emit (ConsoleError ("There was not possible to get masterCopy address from proxy "
                                 +:+ proxyAddress +:+ "."));
         ret (Some "0x3736aC8400751bf07c6A2E4db3F4f3D9D422abB2")
       else ret masterCopyAddress)
      (fun e => run callLog e; ret None);
  ret masterCopyAddress.

(** The deployment the SignMessageLib getters work with: the entry for the
    chain when there is one, the default entry otherwise. *)
Definition signMessageLibEntry (chainId : ChainId) : option SingletonDeployment :=
  match deployments SignMessageLib (mkFilter None (Some chainId)) with
  | Some d => Some d
  | None => deployments SignMessageLib noFilter
  end.

(** *** The resolution order, in the words of the specification *)

(** The registry entries to try for [safeVersion], in order. *)
Definition resolutionOrder (safeVersion : string) : list DeploymentFilter :=
  [ mkFilter (Some safeVersion) (Some _getChainId);
    mkFilter (Some safeVersion) None ]
  ++ (if semverSatisfies safeVersion "<1.0.0" then [ mkFilter (Some "1.0.0") None ] else []).

(** The first entry found when the filters are tried in order. *)
Fixpoint firstHit (find : DeploymentFilter -> option SingletonDeployment)
  (filters : list DeploymentFilter) : option SingletonDeployment :=
  match filters with
  | [] => None
  | f :: rest =>
      match find f with
      | Some d => Some d
      | None => firstHit find rest
      end
  end.

(** The filters that are tried: all up to and including the first hit. *)
Fixpoint consulted (find : DeploymentFilter -> option SingletonDeployment)
  (filters : list DeploymentFilter) : list DeploymentFilter :=
  match filters with
  | [] => []
  | f :: rest =>
      f :: match find f with
           | Some _ => []
           | None => consulted find rest
           end
  end.

(** *** Properties *)

Ltac run_js :=
  unfold getSafeContractDeployment, getSafeL2SingletonDeployment, getSafeSingletonDeployment,
    getProxyFactoryDeployment, getFallbackHandlerDeployment, getMultiSendCallOnlyDeployment,
    getSignMessageLibDeployment, lookupDeployment, networkAddressOf, newContract,
    orElse, tryCatch, await, bind, emit, throw, ret, outcome, trace in *;
  simpl in *.

Lemma firstHit_consulted_last find filters d :
  firstHit find filters = Some d ->
  exists f, last (consulted find filters) = Some f /\ find f = Some d.
Proof.
  induction filters as [|f rest IH]; simpl; [discriminate|].
  destruct (find f) as [d'|] eqn:Hf.
  - intros [= ->]. exists f. split; [reflexivity | exact Hf].
  - intros Hrest. destruct (IH Hrest) as (g & Hlast & Hg).
    exists g. split; [|exact Hg].
    destruct (consulted find rest) as [|x xs] eqn:Hc; [discriminate|].
    exact Hlast.
Qed.

Lemma firstHit_None_consulted find filters :
  firstHit find filters = None -> consulted find filters = filters.
Proof.
  induction filters as [|f rest IH]; simpl; [reflexivity|].
  destruct (find f); [discriminate|]. intros H. f_equal. auto.
Qed.

(** C1.  [getSafeContractDeployment] tries the registry entries of
    [resolutionOrder] in that order -- the version on the current network,
    the version on any network and, only for a version satisfying
    [<1.0.0], version 1.0.0 -- on one table, stops at the first entry found
    and returns it; it returns [undefined] when every one misses. *)
Theorem getSafeContractDeployment_resolution (safeVersion : string) :
  exists table,
    outcome (getSafeContractDeployment safeVersion)
      = Returned (firstHit (deployments table) (resolutionOrder safeVersion))
    /\ trace (getSafeContractDeployment safeVersion)
      = RegistryLookup table <$> consulted (deployments table) (resolutionOrder safeVersion).
Proof.
  unfold resolutionOrder.
  exists (if l2 (getChainById _getChainId) && semverSatisfies safeVersion ">=1.3.0"
          then SafeL2Singleton else SafeSingleton).
  run_js.
  destruct (l2 (getChainById _getChainId) && semverSatisfies safeVersion ">=1.3.0");
    destruct (semverSatisfies safeVersion "<1.0.0"); run_js;
    repeat match goal with
           | |- context [deployments ?t ?f] => destruct (deployments t f); simpl
           end;
    split; reflexivity.
Qed.

(** C2.  Every registry lookup of [getSafeContractDeployment] goes to one
    table: the L2 singleton table exactly when the current chain has [l2]
    set and the version satisfies [>=1.3.0], the L1 singleton table in
    every other case. *)
Theorem getSafeContractDeployment_table (safeVersion : string) :
  let tables := lookupTables (trace (getSafeContractDeployment safeVersion)) in
  let chainIsL2 := l2 (getChainById _getChainId) in
  let atLeast130 := semverSatisfies safeVersion ">=1.3.0" in
  tables <> []
  /\ (SafeL2Singleton ∈ tables <-> chainIsL2 = true /\ atLeast130 = true)
  /\ (chainIsL2 = true /\ atLeast130 = true -> Forall (eq SafeL2Singleton) tables)
  /\ (~ (chainIsL2 = true /\ atLeast130 = true) -> Forall (eq SafeSingleton) tables).
Proof.
  cbv zeta. run_js.
  destruct (l2 (getChainById _getChainId)); destruct (semverSatisfies safeVersion ">=1.3.0");
    destruct (semverSatisfies safeVersion "<1.0.0"); run_js;
    repeat match goal with
           | |- context [deployments ?t ?f] => destruct (deployments t f); simpl
           end;
    (split; [discriminate|]);
    (split; [split; [intros Hin; try (split; reflexivity);
                     repeat (apply elem_of_cons in Hin as [Hin|Hin]; [discriminate|]);
                     apply elem_of_nil in Hin; contradiction
                    | intros [? ?]; try discriminate; apply list_elem_of_here]|]);
    (split; [intros [? ?]; try discriminate; repeat constructor
            | intros Hn; try (exfalso; apply Hn; split; reflexivity); repeat constructor]).
Qed.

Lemma getSafeContractDeployment_returns (safeVersion : string) :
  exists tr d, getSafeContractDeployment safeVersion = (tr, Returned d).
Proof.
  run_js.
  destruct (l2 (getChainById _getChainId) && semverSatisfies safeVersion ">=1.3.0");
    destruct (semverSatisfies safeVersion "<1.0.0"); run_js;
    repeat match goal with
           | |- context [deployments ?t ?f] => destruct (deployments t f); simpl
           end;
    eauto.
Qed.

(** C5, as the code has it.  When the deployment a getter resolved lists
    no (non-empty) address for the chain id, the GnosisSafe getter and the
    ProxyFactory getter do not throw: the contract is created from the
    ABI of that deployment at the literal address 0x4f9b...100e.  When no
    deployment is resolved at all, the literal address is chosen all the
    same, but there is no ABI to create the contract from, and the
    constructor throws. *)
Theorem contract_getters_literal_address_or_throw (chainId : ChainId) :
  (forall d,
      outcome (getSafeContractDeployment LATEST_SAFE_VERSION) = Returned (Some d) ->
      networkAddresses d !! chainId = None \/ networkAddresses d !! chainId = Some "" ->
      outcome (getGnosisSafeContractInstance chainId)
        = Returned (mkContract (Some (abi d))
                      (Some "0x4f9b1def3a0f6747bf8c870a27d3decdf029100e")))
  /\ (outcome (getSafeContractDeployment LATEST_SAFE_VERSION) = Returned None ->
      outcome (getGnosisSafeContractInstance chainId)
        = outcome (newContract None (Some "0x4f9b1def3a0f6747bf8c870a27d3decdf029100e"))
      /\ outcome (getGnosisSafeContractInstance chainId)
        = Thrown (Error
            "You must provide the json interface of the contract when instantiating a contract object."))
  /\ (forall d,
        deployments ProxyFactory (mkFilter (Some LATEST_SAFE_VERSION) (Some chainId)) = Some d
        \/ (deployments ProxyFactory (mkFilter (Some LATEST_SAFE_VERSION) (Some chainId)) = None
            /\ deployments ProxyFactory (mkFilter (Some LATEST_SAFE_VERSION) None) = Some d) ->
        networkAddresses d !! chainId = None \/ networkAddresses d !! chainId = Some "" ->
        outcome (getProxyFactoryContractInstance chainId)
          = Returned (mkContract (Some (abi d))
                        (Some "0x4f9b1def3a0f6747bf8c870a27d3decdf029100e")))
  /\ (deployments ProxyFactory (mkFilter (Some LATEST_SAFE_VERSION) (Some chainId)) = None ->
      deployments ProxyFactory (mkFilter (Some LATEST_SAFE_VERSION) None) = None ->
      outcome (getProxyFactoryContractInstance chainId)
        = outcome (newContract None (Some "0x4f9b1def3a0f6747bf8c870a27d3decdf029100e"))
      /\ outcome (getProxyFactoryContractInstance chainId)
        = Thrown (Error
            "You must provide the json interface of the contract when instantiating a contract object.")).
Proof.
  unfold getGnosisSafeContractInstance, getProxyFactoryContractInstance.
  destruct (getSafeContractDeployment_returns LATEST_SAFE_VERSION) as (tr & d0 & ->).
  split; [|split; [|split]].
  - intros d Hd Hmiss. run_js. injection Hd as ->. simpl.
    destruct Hmiss as [-> | ->]; reflexivity.
  - intros Hd. run_js. injection Hd as ->. split; reflexivity.
  - intros d Hd Hmiss. run_js.
    destruct Hd as [-> | [-> ->]]; simpl; destruct Hmiss as [-> | ->]; reflexivity.
  - intros H1 H2. run_js. rewrite H1. simpl. rewrite H2. split; reflexivity.
Qed.

(** C6, as the code has it.  [getSignMessageLibAddress] throws exactly
    when the chain is not the one with the hardcoded address and the
    deployment in use -- the entry for the chain, or else the default
    entry -- is missing or lists no (non-empty) address for the chain: a
    default entry that exists does not prevent the throw.  What it throws
    is a plain [Error]; when it does not throw it returns a non-empty
    string, the hardcoded address or the address the deployment in use
    lists for the chain. *)
Theorem getSignMessageLibAddress_throws_iff_no_address (chainId : ChainId) :
  (isThrown (outcome (getSignMessageLibAddress chainId)) = true
     <-> chainId <> "1666600000"
         /\ forall d,
              deployments SignMessageLib (mkFilter None (Some chainId)) = Some d
              \/ (deployments SignMessageLib (mkFilter None (Some chainId)) = None
                  /\ deployments SignMessageLib (mkFilter None None) = Some d) ->
              networkAddresses d !! chainId = None
              \/ networkAddresses d !! chainId = Some "")
  /\ (forall e, outcome (getSignMessageLibAddress chainId) = Thrown e ->
        e = Error ("SignMessageLib contract not found for chainId: " +:+ chainId))
  /\ (isThrown (outcome (getSignMessageLibAddress chainId)) = false ->
        exists a,
          a <> ""
          /\ outcome (getSignMessageLibAddress chainId) = Returned (Some a)
          /\ (chainId = "1666600000" -> a = "0x1b02dA8Cb0d097eB8D57A175b88c7D8b47997506")
          /\ (chainId <> "1666600000" ->
              exists d,
                (deployments SignMessageLib (mkFilter None (Some chainId)) = Some d
                 \/ (deployments SignMessageLib (mkFilter None (Some chainId)) = None
                     /\ deployments SignMessageLib (mkFilter None None) = Some d))
                /\ networkAddresses d !! chainId = Some a)).
Proof.
  unfold getSignMessageLibAddress. run_js. unfold noFilter.
  destruct (String.eqb_spec chainId "1666600000") as [->|Hne].
  - destruct (deployments SignMessageLib _); simpl;
      [|destruct (deployments SignMessageLib _); simpl];
      (split; [split; [(intros; congruence) | intros [H _]; contradiction]|]);
      (split; [(intros; congruence)|]);
      (intros _; eexists; split; [|split; [reflexivity|split; [reflexivity|]]];
       [(intros; congruence) | intros H; contradiction]).
  - destruct (deployments SignMessageLib (mkFilter None (Some chainId))) as [d|] eqn:E1; simpl.
    + destruct (networkAddresses d !! chainId) as [[|c a]|] eqn:Ea; simpl.
      * split; [split; [intros _; split; [exact Hne|] | reflexivity]|].
        { intros d' [[= <-] | [[=] _]]. right. exact Ea. }
        split; [intros e [= <-]; reflexivity | (intros; congruence)].
      * split; [split; [(intros; congruence)|]|].
        { intros [_ H]. destruct (H d (or_introl eq_refl)) as [H'|H']; congruence. }
        split; [(intros; congruence)|].
        intros _. exists (String c a). split; [(intros; congruence)|]. split; [reflexivity|].
        split; [intros ->; contradiction|]. intros _. exists d. split; [by left | exact Ea].
      * split; [split; [intros _; split; [exact Hne|] | reflexivity]|].
        { intros d' [[= <-] | [[=] _]]. left. exact Ea. }
        split; [intros e [= <-]; reflexivity | (intros; congruence)].
    + destruct (deployments SignMessageLib (mkFilter None None)) as [d|] eqn:E2; simpl.
      * destruct (networkAddresses d !! chainId) as [[|c a]|] eqn:Ea; simpl.
        -- split; [split; [intros _; split; [exact Hne|] | reflexivity]|].
           { intros d' [[=] | [_ [= <-]]]. right. exact Ea. }
           split; [intros e [= <-]; reflexivity | (intros; congruence)].
        -- split; [split; [(intros; congruence)|]|].
           { intros [_ H]. destruct (H d (or_intror (conj eq_refl eq_refl))) as [H'|H'];
               congruence. }
           split; [(intros; congruence)|].
           intros _. exists (String c a). split; [(intros; congruence)|]. split; [reflexivity|].
           split; [intros ->; contradiction|]. intros _. exists d.
           split; [right; split; reflexivity | exact Ea].
        -- split; [split; [intros _; split; [exact Hne|] | reflexivity]|].
           { intros d' [[=] | [_ [= <-]]]. left. exact Ea. }
           split; [intros e [= <-]; reflexivity | (intros; congruence)].
      * split; [split; [intros _; split; [exact Hne|] | reflexivity]|].
        { intros d' [[=] | [_ [=]]]. }
        split; [intros e [= <-]; reflexivity | (intros; congruence)].
Qed.

(** C9.  On chain 1666600000 both SignMessageLib getters use the hardcoded
    address 0x1b02...7506, whatever the registry holds for that chain: the
    address getter returns it, and the instance getter hands it to the
    contract constructor, so that with an entry in the registry the
    contract is created from the entry's ABI at the hardcoded address. *)
Theorem signMessageLib_hardcoded_on_1666600000 :
  outcome (getSignMessageLibAddress "1666600000")
    = Returned (Some "0x1b02dA8Cb0d097eB8D57A175b88c7D8b47997506")
  /\ outcome (getSignMessageLibContractInstance "1666600000")
    = outcome (newContract (abi <$> signMessageLibEntry "1666600000")
                 (Some "0x1b02dA8Cb0d097eB8D57A175b88c7D8b47997506"))
  /\ (forall d,
        signMessageLibEntry "1666600000" = Some d ->
        outcome (getSignMessageLibContractInstance "1666600000")
          = Returned (mkContract (Some (abi d))
                        (Some "0x1b02dA8Cb0d097eB8D57A175b88c7D8b47997506"))).
Proof.
  unfold getSignMessageLibAddress, getSignMessageLibContractInstance, signMessageLibEntry.
  run_js.
  destruct (deployments SignMessageLib _); simpl;
    [|destruct (deployments SignMessageLib noFilter); simpl];
    (split; [reflexivity|]); (split; [reflexivity|]);
    intros d [= <-]; reflexivity.
Qed.

(** When [getSafeInfo] fulfils, the implementation address is returned, or
    the literal default when the address is missing. *)
Lemma getMasterCopyAddress_fulfilled (proxyAddress : string) (res : SafeInfo) :
  getSafeInfo proxyAddress = Returned res ->
  outcome (getMasterCopyAddressFromProxyAddress proxyAddress)
    = Returned (if truthy (implementation_value res)
                then implementation_value res
                else Some "0x3736aC8400751bf07c6A2E4db3F4f3D9D422abB2").
Proof.
  intros H. unfold getMasterCopyAddressFromProxyAddress. rewrite H. run_js.
  destruct (truthy (implementation_value res)); reflexivity.
Qed.

(** C7, as the code has it.  When [getSafeInfo] rejects with [e], the
    catch branch calls [e.log()]: with a value that has no such method
    (any built-in error) the function itself rejects with a [TypeError];
    with a value that has one, the method is called once and [undefined]
    is returned. *)
Theorem getMasterCopyAddress_rejected (proxyAddress : string) (e : ErrorValue) :
  getSafeInfo proxyAddress = Thrown e ->
  (err_log e = false ->
     getMasterCopyAddressFromProxyAddress proxyAddress
       = ([], Thrown (TypeError "e.log is not a function")))
  /\ (err_log e = true ->
     getMasterCopyAddressFromProxyAddress proxyAddress
       = ([LogMethodCalled e], Returned None)).
Proof.
  intros H. unfold getMasterCopyAddressFromProxyAddress, callLog. rewrite H. run_js.
  split; intros Hlog; rewrite Hlog; reflexivity.
Qed.

(** *** The rest of the file: instance at an address, module state *)

Definition getGnosisSafeInstanceAt (safeAddress safeVersion : string)
  : M Event ContractInstance :=
  do safeSingletonDeployment <- getSafeContractDeployment safeVersion;
  newContract (abi <$> safeSingletonDeployment) (Some safeAddress).

(** The four module-level variables; each is [undefined] until assigned. *)
Record Contracts := mkContracts {
  proxyFactoryMaster : option ContractInstance;
  safeMaster : option ContractInstance;
  fallbackHandler : option ContractInstance;
  multiSend : option ContractInstance
}.

Definition uninitialised : Contracts := mkContracts None None None None.

(** Computations over the module variables: the variables survive a
    throw. *)
Definition St (A : Type) : Type := Contracts -> list Event * Contracts * Outcome A.

Definition retSt {A : Type} (a : A) : St A := fun st => ([], st, Returned a).

Definition throwSt {A : Type} (e : ErrorValue) : St A := fun st => ([], st, Thrown e).

Definition liftSt {A : Type} (m : M Event A) : St A := fun st => (trace m, st, outcome m).

Definition readSt {A : Type} (f : Contracts -> A) : St A := fun st => ([], st, Returned (f st)).

Definition assignSt (f : Contracts -> Contracts) : St unit := fun st => ([], f st, Returned tt).

Definition bindSt {A B : Type} (m : St A) (k : A -> St B) : St B :=
  fun st =>
    match m st with
    | (t, st', Returned a) => let '(t', st'', o) := k a st' in (t ++ t', st'', o)
    | (t, st', Thrown e) => (t, st', Thrown e)
    end.

Local Notation "'doS' x <- m ; k" := (bindSt m (fun x => k))
  (at level 10, x name, m at level 100, k at level 200).
Local Notation "'runS' m ; k" := (bindSt m (fun _ => k))
  (at level 10, m at level 100, k at level 200).

Definition instantiateSafeContracts : St unit :=
  let chainId := _getChainId in
  doS c <- liftSt (getProxyFactoryContractInstance chainId);
  runS assignSt (fun st =>
         mkContracts (Some c) (safeMaster st) (fallbackHandler st) (multiSend st));
  doS c <- liftSt (getGnosisSafeContractInstance chainId);
  runS assignSt (fun st =>
         mkContracts (proxyFactoryMaster st) (Some c) (fallbackHandler st) (multiSend st));
  doS c <- liftSt (getFallbackHandlerContractInstance chainId);
  runS assignSt (fun st =>
         mkContracts (proxyFactoryMaster st) (safeMaster st) (Some c) (multiSend st));
  doS c <- liftSt (getMultiSendContractInstance chainId);
  assignSt (fun st =>
    mkContracts (proxyFactoryMaster st) (safeMaster st) (fallbackHandler st) (Some c)).

(** [contract.options.address]: a [TypeError] on [undefined]. *)
Definition optionsAddress (contract : option ContractInstance) : St (option string) :=
  match contract with
  | Some c => retSt (options_address c)
  | None => throwSt (TypeError "Cannot read properties of undefined (reading 'options')")
  end.

Definition getSafeMasterContract : St (option ContractInstance) :=
  runS instantiateSafeContracts;
  readSt safeMaster.

Definition getSafeMasterContractAddress : St (option string) :=
  doS c <- readSt safeMaster; optionsAddress c.

Definition getFallbackHandlerContractAddress : St (option string) :=
  doS c <- readSt fallbackHandler; optionsAddress c.

Definition getMultisendContract : St (option ContractInstance) :=
  readSt multiSend.

Definition getMultisendContractAddress : St (option string) :=
  doS c <- readSt multiSend; optionsAddress c.

(** The entry a getter works with when it asks the table [t] first with
    [f1] and then with [f2]. *)
Definition entryOf (t : DeploymentTable) (f1 f2 : DeploymentFilter)
  : option SingletonDeployment :=
  match deployments t f1 with
  | Some d => Some d
  | None => deployments t f2
  end.

(** A contract whose address is a non-empty string. *)
Definition addressed (c : option ContractInstance) : bool :=
  match c with
  | Some c => truthy (options_address c)
  | None => false
  end.

(** The variables that [instantiateSafeContracts] has assigned all hold
    addressed contracts. *)
Definition instantiated (st : Contracts) : bool :=
  addressed (proxyFactoryMaster st) && addressed (safeMaster st)
  && addressed (fallbackHandler st) && addressed (multiSend st).

Ltac run_st :=
  unfold getSafeMasterContract, getSafeMasterContractAddress,
    getFallbackHandlerContractAddress, getMultisendContract, getMultisendContractAddress,
    instantiateSafeContracts, optionsAddress, bindSt, liftSt, readSt, assignSt, retSt, throwSt
    in *;
  simpl in *.

Lemma orElse_lookup (t : DeploymentTable) (f1 f2 : DeploymentFilter) :
  exists tr, (lookupDeployment t f1 ||| lookupDeployment t f2)
             = (tr, Returned (entryOf t f1 f2)).
Proof.
  unfold entryOf. run_js. destruct (deployments t f1); simpl; eauto.
Qed.

(** The choice between the registry's address and a literal. *)
Lemma address_or_literal (v : option string) (literal : string) :
  truthyString literal = true ->
  truthy (if negb (truthy v) then Some literal else v) = true.
Proof.
  intros H. destruct (truthy v) eqn:E; simpl; [exact E | exact H].
Qed.

(** The address a getter hands to the constructor: the registry's when
    it is a non-empty string, the literal otherwise. *)
Lemma address_of_entry (d : SingletonDeployment) (chainId : ChainId) (literal : string) :
  (if negb (truthy (networkAddressOf (Some d) chainId))
   then Some literal else networkAddressOf (Some d) chainId)
  = match networkAddresses d !! chainId with
    | Some (String c a) => Some (String c a)
    | _ => Some literal
    end.
Proof.
  unfold networkAddressOf. simpl.
  destruct (networkAddresses d !! chainId) as [[|c a]|]; reflexivity.
Qed.

Lemma getProxyFactoryContractInstance_returns (chainId : ChainId) (d : SingletonDeployment) :
  entryOf ProxyFactory (mkFilter (Some LATEST_SAFE_VERSION) (Some chainId))
    (mkFilter (Some LATEST_SAFE_VERSION) None) = Some d ->
  exists tr c, getProxyFactoryContractInstance chainId = (tr, Returned c)
               /\ jsonInterface c = Some (abi d)
               /\ truthy (options_address c) = true.
Proof.
  intros Hd. unfold getProxyFactoryContractInstance, getProxyFactoryDeployment.
  destruct (orElse_lookup ProxyFactory (mkFilter (Some LATEST_SAFE_VERSION) (Some chainId))
              (mkFilter (Some LATEST_SAFE_VERSION) None)) as (tr & ->).
  rewrite Hd. cbn -[truthy networkAddressOf]. eexists _, _. split; [reflexivity|].
  split; [reflexivity|]. apply address_or_literal. reflexivity.
Qed.

Lemma getGnosisSafeContractInstance_returns (chainId : ChainId) (d : SingletonDeployment) :
  outcome (getSafeContractDeployment LATEST_SAFE_VERSION) = Returned (Some d) ->
  exists tr c, getGnosisSafeContractInstance chainId = (tr, Returned c)
               /\ jsonInterface c = Some (abi d)
               /\ truthy (options_address c) = true.
Proof.
  intros Hd. unfold getGnosisSafeContractInstance.
  destruct (getSafeContractDeployment_returns LATEST_SAFE_VERSION) as (tr & d0 & Heq).
  rewrite Heq in *. cbn [outcome snd] in Hd. injection Hd as ->.
  cbn -[truthy networkAddressOf]. eexists _, _. split; [reflexivity|].
  split; [reflexivity|]. apply address_or_literal. reflexivity.
Qed.

Lemma getFallbackHandlerContractInstance_returns (chainId : ChainId) (d : SingletonDeployment) :
  entryOf FallbackHandler (mkFilter (Some LATEST_SAFE_VERSION) (Some chainId))
    (mkFilter (Some LATEST_SAFE_VERSION) None) = Some d ->
  exists tr c, getFallbackHandlerContractInstance chainId = (tr, Returned c)
               /\ jsonInterface c = Some (abi d)
               /\ truthy (options_address c) = true.
Proof.
  intros Hd. unfold getFallbackHandlerContractInstance, getFallbackHandlerDeployment.
  destruct (orElse_lookup FallbackHandler (mkFilter (Some LATEST_SAFE_VERSION) (Some chainId))
              (mkFilter (Some LATEST_SAFE_VERSION) None)) as (tr & ->).
  rewrite Hd. cbn -[truthy networkAddressOf]. eexists _, _. split; [reflexivity|].
  split; [reflexivity|]. apply address_or_literal. reflexivity.
Qed.

Lemma getMultiSendContractInstance_returns (chainId : ChainId) (d : SingletonDeployment) :
  entryOf MultiSendCallOnly (mkFilter None (Some chainId)) noFilter = Some d ->
  exists tr c, getMultiSendContractInstance chainId = (tr, Returned c)
               /\ jsonInterface c = Some (abi d)
               /\ truthy (options_address c) = true.
Proof.
  intros Hd. unfold getMultiSendContractInstance, getMultiSendCallOnlyDeployment.
  destruct (orElse_lookup MultiSendCallOnly (mkFilter None (Some chainId)) noFilter)
    as (tr & ->).
  rewrite Hd. cbn -[truthy networkAddressOf]. eexists _, _. split; [reflexivity|].
  split; [reflexivity|]. apply address_or_literal. reflexivity.
Qed.



Lemma getFallbackHandlerContractInstance_throws (chainId : ChainId) :
  entryOf FallbackHandler (mkFilter (Some LATEST_SAFE_VERSION) (Some chainId))
    (mkFilter (Some LATEST_SAFE_VERSION) None) = None ->
  exists tr, getFallbackHandlerContractInstance chainId = (tr, Thrown (Error "You must provide the json interface of the contract when instantiating a contract object.")).
Proof.
  intros Hd. unfold getFallbackHandlerContractInstance, getFallbackHandlerDeployment.
  destruct (orElse_lookup FallbackHandler (mkFilter (Some LATEST_SAFE_VERSION) (Some chainId))
              (mkFilter (Some LATEST_SAFE_VERSION) None)) as (tr & ->).
  rewrite Hd. cbn. eauto.
Qed.

Lemma getMultiSendContractInstance_throws (chainId : ChainId) :
  entryOf MultiSendCallOnly (mkFilter None (Some chainId)) noFilter = None ->
  exists tr, getMultiSendContractInstance chainId = (tr, Thrown (Error "You must provide the json interface of the contract when instantiating a contract object.")).
Proof.
  intros Hd. unfold getMultiSendContractInstance, getMultiSendCallOnlyDeployment.
  destruct (orElse_lookup MultiSendCallOnly (mkFilter None (Some chainId)) noFilter)
    as (tr & ->).
  rewrite Hd. cbn. eauto.
Qed.

(** X3.  Each of the four instance getters creates the contract at the address
    the registry lists for the chain, with the ABI of the entry, whenever
    the entry it resolved lists a non-empty address for the chain: the
    literal is not used then. *)
Theorem instance_getters_use_registry_address
  (chainId : ChainId) (d : SingletonDeployment) (a : string) :
  networkAddresses d !! chainId = Some a ->
  truthyString a = true ->
  (outcome (getSafeContractDeployment LATEST_SAFE_VERSION) = Returned (Some d) ->
   outcome (getGnosisSafeContractInstance chainId)
     = Returned (mkContract (Some (abi d)) (Some a)))
  /\ (entryOf ProxyFactory (mkFilter (Some LATEST_SAFE_VERSION) (Some chainId))
        (mkFilter (Some LATEST_SAFE_VERSION) None) = Some d ->
      outcome (getProxyFactoryContractInstance chainId)
        = Returned (mkContract (Some (abi d)) (Some a)))
  /\ (entryOf FallbackHandler (mkFilter (Some LATEST_SAFE_VERSION) (Some chainId))
        (mkFilter (Some LATEST_SAFE_VERSION) None) = Some d ->
      outcome (getFallbackHandlerContractInstance chainId)
        = Returned (mkContract (Some (abi d)) (Some a)))
  /\ (entryOf MultiSendCallOnly (mkFilter None (Some chainId)) noFilter = Some d ->
      outcome (getMultiSendContractInstance chainId)
        = Returned (mkContract (Some (abi d)) (Some a))).
Proof.
  intros Ha Hta.
  assert (Hpick : forall literal,
             (if negb (truthy (networkAddressOf (Some d) chainId))
              then Some literal else networkAddressOf (Some d) chainId) = Some a).
  { intros literal. rewrite address_of_entry, Ha. destruct a; [discriminate Hta|reflexivity]. }
  split; [|split; [|split]].
  - intros Hd. unfold getGnosisSafeContractInstance.
    destruct (getSafeContractDeployment_returns LATEST_SAFE_VERSION) as (tr & d0 & Heq).
    rewrite Heq in *. cbn [outcome snd] in Hd. injection Hd as ->.
    cbn -[truthy networkAddressOf]. rewrite Hpick. reflexivity.
  - intros Hd. unfold getProxyFactoryContractInstance, getProxyFactoryDeployment.
    destruct (orElse_lookup ProxyFactory (mkFilter (Some LATEST_SAFE_VERSION) (Some chainId))
                (mkFilter (Some LATEST_SAFE_VERSION) None)) as (tr & ->).
    rewrite Hd. cbn -[truthy networkAddressOf]. rewrite Hpick. reflexivity.
  - intros Hd. unfold getFallbackHandlerContractInstance, getFallbackHandlerDeployment.
    destruct (orElse_lookup FallbackHandler (mkFilter (Some LATEST_SAFE_VERSION) (Some chainId))
                (mkFilter (Some LATEST_SAFE_VERSION) None)) as (tr & ->).
    rewrite Hd. cbn -[truthy networkAddressOf]. rewrite Hpick. reflexivity.
  - intros Hd. unfold getMultiSendContractInstance, getMultiSendCallOnlyDeployment.
    destruct (orElse_lookup MultiSendCallOnly (mkFilter None (Some chainId)) noFilter)
      as (tr & ->).
    rewrite Hd. cbn -[truthy networkAddressOf]. rewrite Hpick. reflexivity.
Qed.

(** X4.  When the entry it resolved lists no (non-empty) address for the
    chain, the FallbackHandler getter and the MultiSend getter do not
    throw: each creates the contract from the entry's ABI at its own
    literal address.  When no entry is resolved there is no ABI, and the
    constructor throws: the literal address does not help. *)
Theorem fallback_handler_and_multisend_literal_or_throw (chainId : ChainId) :
  (forall d,
      entryOf FallbackHandler (mkFilter (Some LATEST_SAFE_VERSION) (Some chainId))
        (mkFilter (Some LATEST_SAFE_VERSION) None) = Some d ->
      networkAddresses d !! chainId = None \/ networkAddresses d !! chainId = Some "" ->
      outcome (getFallbackHandlerContractInstance chainId)
        = Returned (mkContract (Some (abi d))
                      (Some "0xC5d654bcE1220241FCe1f0F1D6b9E04f75175452")))
  /\ (entryOf FallbackHandler (mkFilter (Some LATEST_SAFE_VERSION) (Some chainId))
        (mkFilter (Some LATEST_SAFE_VERSION) None) = None ->
      outcome (getFallbackHandlerContractInstance chainId) = Thrown (Error "You must provide the json interface of the contract when instantiating a contract object."))
  /\ (forall d,
        entryOf MultiSendCallOnly (mkFilter None (Some chainId)) noFilter = Some d ->
        networkAddresses d !! chainId = None \/ networkAddresses d !! chainId = Some "" ->
        outcome (getMultiSendContractInstance chainId)
          = Returned (mkContract (Some (abi d))
                        (Some "0xDEff67e9A02b4Ce60ff62F3CB5FFB41d48856285")))
  /\ (entryOf MultiSendCallOnly (mkFilter None (Some chainId)) noFilter = None ->
      outcome (getMultiSendContractInstance chainId) = Thrown (Error "You must provide the json interface of the contract when instantiating a contract object.")).
Proof.
  split; [|split; [|split]].
  - intros d Hd Hmiss. unfold getFallbackHandlerContractInstance, getFallbackHandlerDeployment.
    destruct (orElse_lookup FallbackHandler (mkFilter (Some LATEST_SAFE_VERSION) (Some chainId))
                (mkFilter (Some LATEST_SAFE_VERSION) None)) as (tr & ->).
    rewrite Hd. cbn -[truthy networkAddressOf]. rewrite address_of_entry.
    destruct Hmiss as [-> | ->]; reflexivity.
  - intros Hd. destruct (getFallbackHandlerContractInstance_throws chainId Hd) as (tr & ->).
    reflexivity.
  - intros d Hd Hmiss. unfold getMultiSendContractInstance, getMultiSendCallOnlyDeployment.
    destruct (orElse_lookup MultiSendCallOnly (mkFilter None (Some chainId)) noFilter)
      as (tr & ->).
    rewrite Hd. cbn -[truthy networkAddressOf]. rewrite address_of_entry.
    destruct Hmiss as [-> | ->]; reflexivity.
  - intros Hd. destruct (getMultiSendContractInstance_throws chainId Hd) as (tr & ->).
    reflexivity.
Qed.

(** X5.  The two SignMessageLib getters agree.  They make the same
    registry lookups; the address getter also logs the entry to the
    console.  Whatever the address getter throws, the instance getter
    throws; and with an entry in the registry the converse holds too, and
    the contract is created from the entry's ABI at exactly the address
    the address getter returns.  Without any entry the instance getter
    always throws: the missing-address error of the address getter, or,
    on the chain with the hardcoded address, the constructor's error. *)
Theorem signMessageLib_getters_agree (chainId : ChainId) :
  trace (getSignMessageLibAddress chainId)
    = trace (getSignMessageLibContractInstance chainId)
      ++ [ConsoleLog (signMessageLibEntry chainId)]
  /\ (forall e,
        outcome (getSignMessageLibAddress chainId) = Thrown e ->
        outcome (getSignMessageLibContractInstance chainId) = Thrown e)
  /\ (forall a,
        outcome (getSignMessageLibAddress chainId) = Returned a ->
        outcome (getSignMessageLibContractInstance chainId)
          = outcome (newContract (abi <$> signMessageLibEntry chainId) a))
  /\ (forall d,
        signMessageLibEntry chainId = Some d ->
        (forall e,
            outcome (getSignMessageLibAddress chainId) = Thrown e <->
            outcome (getSignMessageLibContractInstance chainId) = Thrown e)
        /\ (forall a,
              outcome (getSignMessageLibAddress chainId) = Returned a <->
              outcome (getSignMessageLibContractInstance chainId)
                = Returned (mkContract (Some (abi d)) a)))
  /\ (signMessageLibEntry chainId = None ->
      isThrown (outcome (getSignMessageLibContractInstance chainId)) = true).
Proof.
  unfold getSignMessageLibAddress, getSignMessageLibContractInstance,
    getSignMessageLibDeployment.
  destruct (orElse_lookup SignMessageLib (mkFilter None (Some chainId)) noFilter) as (tr & ->).
  change (entryOf SignMessageLib (mkFilter None (Some chainId)) noFilter)
    with (signMessageLibEntry chainId).
  cbn -[truthy networkAddressOf String.eqb newContract].
  destruct (truthy (if String.eqb chainId "1666600000"
                    then Some "0x1b02dA8Cb0d097eB8D57A175b88c7D8b47997506"
                    else networkAddressOf (signMessageLibEntry chainId) chainId));
    cbn -[networkAddressOf String.eqb newContract].
  - destruct (signMessageLibEntry chainId) as [d|]; cbn -[networkAddressOf String.eqb].
    + rewrite app_nil_r. split; [reflexivity|]. split; [intros e [=]|].
      split; [intros a [= <-]; reflexivity|]. split; [|intros [=]].
      intros d' [= <-]. split.
      * intros e. split; intros [=].
      * intros a. split; intros [= <-]; reflexivity.
    + rewrite app_nil_r. split; [reflexivity|]. split; [intros e [=]|].
      split; [intros a [= <-]; reflexivity|]. split; [intros d' [=]|].
      intros _. reflexivity.
  - rewrite app_nil_r. split; [reflexivity|]. split; [intros e [= <-]; reflexivity|].
    split; [intros a [=]|]. split; [|intros _; reflexivity].
    intros d _. split.
    + intros e. split; intros [= <-]; reflexivity.
    + intros a. split; intros [=].
Qed.

(** X6.  When [getSafeInfo] fulfils, the result is never [undefined] nor empty:
    it is the implementation address, or the literal default -- with one
    console error -- when the safe info has no implementation address. *)
Theorem getMasterCopyAddress_fulfilled_defined (proxyAddress : string) (res : SafeInfo) :
  getSafeInfo proxyAddress = Returned res ->
  exists a,
    truthyString a = true
    /\ outcome (getMasterCopyAddressFromProxyAddress proxyAddress) = Returned (Some a)
    /\ (truthy (implementation_value res) = true ->
        implementation_value res = Some a
        /\ trace (getMasterCopyAddressFromProxyAddress proxyAddress) = [])
    /\ (truthy (implementation_value res) = false ->
        a = "0x3736aC8400751bf07c6A2E4db3F4f3D9D422abB2"
        /\ trace (getMasterCopyAddressFromProxyAddress proxyAddress)
           = [ConsoleError ("There was not possible to get masterCopy address from proxy "
                            +:+ proxyAddress +:+ ".")]).
Proof.
  intros H. unfold getMasterCopyAddressFromProxyAddress. rewrite H.
  destruct (implementation_value res) as [[|c v]|] eqn:E.
  - exists "0x3736aC8400751bf07c6A2E4db3F4f3D9D422abB2". run_js. rewrite E. simpl.
    repeat split; try discriminate; reflexivity.
  - exists (String c v). run_js. rewrite E. simpl.
    repeat split; try discriminate; reflexivity.
  - exists "0x3736aC8400751bf07c6A2E4db3F4f3D9D422abB2". run_js. rewrite E. simpl.
    repeat split; try discriminate; reflexivity.
Qed.

(** X7.  [getGnosisSafeInstanceAt] has nothing to fall back to.  After
    the registry lookups of the resolution order it calls the contract
    constructor with the ABI of the deployment found and with the address
    it was given, never with a literal; when every entry misses there is
    no ABI and the call throws, whatever the address. *)
Theorem getGnosisSafeInstanceAt_needs_deployment (safeAddress safeVersion : string) :
  exists table,
    trace (getGnosisSafeInstanceAt safeAddress safeVersion)
      = RegistryLookup table <$> consulted (deployments table) (resolutionOrder safeVersion)
    /\ outcome (getGnosisSafeInstanceAt safeAddress safeVersion)
       = outcome (newContract
                    (abi <$> firstHit (deployments table) (resolutionOrder safeVersion))
                    (Some safeAddress))
    /\ (firstHit (deployments table) (resolutionOrder safeVersion) = None ->
        outcome (getGnosisSafeInstanceAt safeAddress safeVersion) = Thrown (Error "You must provide the json interface of the contract when instantiating a contract object.")).
Proof.
  unfold getGnosisSafeInstanceAt, resolutionOrder.
  exists (if l2 (getChainById _getChainId) && semverSatisfies safeVersion ">=1.3.0"
          then SafeL2Singleton else SafeSingleton).
  run_js.
  destruct (l2 (getChainById _getChainId) && semverSatisfies safeVersion ">=1.3.0");
    destruct (semverSatisfies safeVersion "<1.0.0"); run_js;
    repeat match goal with
           | |- context [deployments ?t ?f] => destruct (deployments t f); simpl
           end;
    (split; [reflexivity|]); (split; [reflexivity|]);
    first [intros _; reflexivity | intros [=]].
Qed.

(** X8.  When the registry has a deployment for each of the four
    contracts, [instantiateSafeContracts] does not throw and assigns all
    four module variables, whatever they held before: each holds the
    contract its getter creates for the current chain id, created from
    the ABI of its deployment at a non-empty address. *)
Theorem instantiateSafeContracts_assigns_all
  (st : Contracts) (dpf dsm dfh dms : SingletonDeployment) :
  entryOf ProxyFactory (mkFilter (Some LATEST_SAFE_VERSION) (Some _getChainId))
    (mkFilter (Some LATEST_SAFE_VERSION) None) = Some dpf ->
  outcome (getSafeContractDeployment LATEST_SAFE_VERSION) = Returned (Some dsm) ->
  entryOf FallbackHandler (mkFilter (Some LATEST_SAFE_VERSION) (Some _getChainId))
    (mkFilter (Some LATEST_SAFE_VERSION) None) = Some dfh ->
  entryOf MultiSendCallOnly (mkFilter None (Some _getChainId)) noFilter = Some dms ->
  exists tr pf sm fh ms,
    instantiateSafeContracts st
      = (tr, mkContracts (Some pf) (Some sm) (Some fh) (Some ms), Returned tt)
    /\ outcome (getProxyFactoryContractInstance _getChainId) = Returned pf
    /\ outcome (getGnosisSafeContractInstance _getChainId) = Returned sm
    /\ outcome (getFallbackHandlerContractInstance _getChainId) = Returned fh
    /\ outcome (getMultiSendContractInstance _getChainId) = Returned ms
    /\ jsonInterface pf = Some (abi dpf) /\ jsonInterface sm = Some (abi dsm)
    /\ jsonInterface fh = Some (abi dfh) /\ jsonInterface ms = Some (abi dms)
    /\ instantiated (mkContracts (Some pf) (Some sm) (Some fh) (Some ms)) = true.
Proof.
  intros Hpf Hsm Hfh Hms.
  unfold instantiateSafeContracts, instantiated, addressed.
  destruct (getProxyFactoryContractInstance_returns _getChainId dpf Hpf)
    as (t1 & pf & E1 & J1 & A1).
  destruct (getGnosisSafeContractInstance_returns _getChainId dsm Hsm)
    as (t2 & sm & E2 & J2 & A2).
  destruct (getFallbackHandlerContractInstance_returns _getChainId dfh Hfh)
    as (t3 & fh & E3 & J3 & A3).
  destruct (getMultiSendContractInstance_returns _getChainId dms Hms)
    as (t4 & ms & E4 & J4 & A4).
  rewrite E1, E2, E3, E4.
  unfold bindSt, liftSt, assignSt. cbn -[truthy].
  eexists _, pf, sm, fh, ms. split; [reflexivity|].
  rewrite A1, A2, A3, A4. repeat split; reflexivity || assumption.
Qed.

(** X9.  When the registry has a deployment for each of the four
    contracts, [getSafeMasterContract] returns a contract, from any state
    of the module variables: the one the GnosisSafe getter creates for the
    current chain id, from the ABI of the safe deployment at a non-empty
    address; and it leaves all four module variables instantiated. *)
Theorem getSafeMasterContract_defined
  (st : Contracts) (dpf dsm dfh dms : SingletonDeployment) :
  entryOf ProxyFactory (mkFilter (Some LATEST_SAFE_VERSION) (Some _getChainId))
    (mkFilter (Some LATEST_SAFE_VERSION) None) = Some dpf ->
  outcome (getSafeContractDeployment LATEST_SAFE_VERSION) = Returned (Some dsm) ->
  entryOf FallbackHandler (mkFilter (Some LATEST_SAFE_VERSION) (Some _getChainId))
    (mkFilter (Some LATEST_SAFE_VERSION) None) = Some dfh ->
  entryOf MultiSendCallOnly (mkFilter None (Some _getChainId)) noFilter = Some dms ->
  exists tr st' c,
    getSafeMasterContract st = (tr, st', Returned (Some c))
    /\ outcome (getGnosisSafeContractInstance _getChainId) = Returned c
    /\ jsonInterface c = Some (abi dsm)
    /\ truthy (options_address c) = true
    /\ instantiated st' = true.
Proof.
  intros Hpf Hsm Hfh Hms.
  destruct (getProxyFactoryContractInstance_returns _getChainId dpf Hpf)
    as (t1 & pf & E1 & J1 & A1).
  destruct (getGnosisSafeContractInstance_returns _getChainId dsm Hsm)
    as (t2 & sm & E2 & J2 & A2).
  destruct (getFallbackHandlerContractInstance_returns _getChainId dfh Hfh)
    as (t3 & fh & E3 & J3 & A3).
  destruct (getMultiSendContractInstance_returns _getChainId dms Hms)
    as (t4 & ms & E4 & J4 & A4).
  unfold getSafeMasterContract, instantiateSafeContracts, instantiated, addressed.
  rewrite E1, E2, E3, E4.
  unfold bindSt, liftSt, assignSt, readSt. cbn -[truthy].
  eexists _, _, sm. split; [reflexivity|].
  cbn -[truthy]. rewrite A1, A2, A3, A4. repeat split; reflexivity || assumption.
Qed.


(** X10.  Once the module variables are instantiated, the address getters
    return non-empty addresses -- those of the stored contracts -- without
    throwing and without touching the variables, and
    [getMultisendContract] returns a contract. *)
Theorem address_getters_after_instantiation (st : Contracts) :
  instantiated st = true ->
  exists sm fh ms,
    safeMaster st = Some sm /\ fallbackHandler st = Some fh /\ multiSend st = Some ms
    /\ getSafeMasterContractAddress st = ([], st, Returned (options_address sm))
    /\ getFallbackHandlerContractAddress st = ([], st, Returned (options_address fh))
    /\ getMultisendContractAddress st = ([], st, Returned (options_address ms))
    /\ getMultisendContract st = ([], st, Returned (Some ms))
    /\ truthy (options_address sm) = true
    /\ truthy (options_address fh) = true
    /\ truthy (options_address ms) = true.
Proof.
  unfold instantiated, addressed. intros H.
  apply andb_prop in H as [H Hms]. apply andb_prop in H as [H Hfh].
  apply andb_prop in H as [_ Hsm].
  destruct st as [pf [sm|] [fh|] [ms|]]; cbn [safeMaster fallbackHandler multiSend] in *;
    try discriminate.
  exists sm, fh, ms. repeat split; assumption || reflexivity.
Qed.

(** X11.  Before the module variables are assigned the address getters throw a
    [TypeError] and leave the variables as they are, while
    [getMultisendContract] returns [undefined] without throwing. *)
Theorem address_getters_before_instantiation (st : Contracts) :
  (safeMaster st = None ->
   exists e, getSafeMasterContractAddress st = ([], st, Thrown e)
             /\ err_name e = "TypeError")
  /\ (fallbackHandler st = None ->
      exists e, getFallbackHandlerContractAddress st = ([], st, Thrown e)
                /\ err_name e = "TypeError")
  /\ (multiSend st = None ->
      (exists e, getMultisendContractAddress st = ([], st, Thrown e)
                 /\ err_name e = "TypeError")
      /\ getMultisendContract st = ([], st, Returned None)).
Proof.
  unfold getSafeMasterContractAddress, getFallbackHandlerContractAddress,
    getMultisendContractAddress, getMultisendContract, bindSt, readSt.
  split; [|split]; intros H; rewrite H; cbn.
  - eexists. split; reflexivity.
  - eexists. split; reflexivity.
  - split; [eexists; split; reflexivity | reflexivity].
Qed.

End WithEnvironment.

(** *** A registry to run the getters on *)

Module Fixture.

(** The lookup of safe-deployments: the first released descriptor that has
    the version asked for, if any, and an address on the network asked
    for, if any. *)
Definition meets (f : DeploymentFilter) (d : SingletonDeployment) : bool :=
  match version f with
  | Some v => negb (truthyString v) || String.eqb (dversion d) v
  | None => true
  end
  && released d
  && match network f with
     | Some n => negb (truthyString n) || truthy (networkAddresses d !! n)
     | None => true
     end.

Definition findDeployment (f : DeploymentFilter) (ds : list SingletonDeployment)
  : option SingletonDeployment :=
  List.find (meets f) ds.

Definition safe_1_3_0 : SingletonDeployment :=
  mkDeployment "GnosisSafe" "1.3.0" true ["setup"; "execTransaction"]
    (<["1" := "0xd9Db270c1B5E3Bd161E8c8503c55cEABeE709552"]>
     (<["100" := "0xd9Db270c1B5E3Bd161E8c8503c55cEABeE709552"]> ∅)).

Definition safe_1_1_1 : SingletonDeployment :=
  mkDeployment "GnosisSafe" "1.1.1" true ["setup"; "execTransaction"]
    (<["1" := "0x34CfAC646f301356fAa8B21e94227e3583Fe3F5F"]> ∅).

Definition safe_1_0_0 : SingletonDeployment :=
  mkDeployment "GnosisSafe" "1.0.0" true ["setup"; "execTransaction"]
    (<["1" := "0xb6029EA3B2c51D09a50B53CA8012FeEB05bDa35A"]> ∅).

Definition safeL2_1_3_0 : SingletonDeployment :=
  mkDeployment "GnosisSafeL2" "1.3.0" true ["setup"; "execTransaction"]
    (<["1" := "0x3E5c63644E683549055b9Be8653de26E0B4CD36E"]>
     (<["100" := "0x3E5c63644E683549055b9Be8653de26E0B4CD36E"]> ∅)).

Definition proxyFactory_1_3_0 : SingletonDeployment :=
  mkDeployment "GnosisSafeProxyFactory" "1.3.0" true ["createProxyWithNonce"]
    (<["1" := "0xa6B71E26C5e0845f74c812102Ca7114b6a896AB2"]> ∅).

Definition signMessageLib_1_3_0 : SingletonDeployment :=
  mkDeployment "SignMessageLib" "1.3.0" true ["signMessage"]
    (<["1" := "0xA65387F16B013cf2Af4605Ad8aA5ec25a2cbA3a2"]>
     (<["1666600000" := "0xA65387F16B013cf2Af4605Ad8aA5ec25a2cbA3a2"]> ∅)).

Definition deployments (t : DeploymentTable) (f : DeploymentFilter)
  : option SingletonDeployment :=
  findDeployment f
    match t with
    | SafeSingleton => [safe_1_3_0; safe_1_1_1; safe_1_0_0]
    | SafeL2Singleton => [safeL2_1_3_0]
    | ProxyFactory => [proxyFactory_1_3_0]
    | SignMessageLib => [signMessageLib_1_3_0]
    | FallbackHandler | MultiSendCallOnly => []
    end.

(** A registry with nothing in it. *)
Definition noDeployments (t : DeploymentTable) (f : DeploymentFilter)
  : option SingletonDeployment := None.

(** Version matching for MAJOR.MINOR.PATCH versions and the two shapes of
    range the file uses, [<V] and [>=V]. *)
Fixpoint fields (s : string) : list string :=
  match s with
  | EmptyString => [EmptyString]
  | String c s' =>
      if Ascii.eqb c "."
      then EmptyString :: fields s'
      else match fields s' with
           | h :: t => String c h :: t
           | [] => [String c EmptyString]
           end
  end.

Fixpoint digits (acc : nat) (s : string) : option nat :=
  match s with
  | EmptyString => Some acc
  | String c s' =>
      let n := nat_of_ascii c in
      if ((48 <=? n) && (n <=? 57))%nat then digits (10 * acc + (n - 48)) s' else None
  end.

Definition parseNumber (s : string) : option nat :=
  match s with
  | EmptyString => None
  | _ => digits 0 s
  end.

Definition parseVersion (s : string) : option (nat * nat * nat) :=
  match fields s with
  | [a; b; c] =>
      x ← parseNumber a; y ← parseNumber b; z ← parseNumber c; Some (x, y, z)
  | _ => None
  end.

Definition versionLt (v w : nat * nat * nat) : bool :=
  let '(a, b, c) := v in
  let '(x, y, z) := w in
  ((a <? x) || ((a =? x) && ((b <? y) || ((b =? y) && (c <? z)))))%nat.

Definition dropFirst (n : nat) (s : string) : string :=
  String.substring n (String.length s - n) s.

Definition semverSatisfies (v range : string) : bool :=
  match parseVersion v with
  | None => false
  | Some x =>
      if String.prefix ">=" range
      then match parseVersion (dropFirst 2 range) with
           | Some y => negb (versionLt x y)
           | None => false
           end
      else if String.prefix "<" range
      then match parseVersion (dropFirst 1 range) with
           | Some y => versionLt x y
           | None => false
           end
      else false
  end.

(** Chains 100 and 137 are L2 chains. *)
Definition getChainById (id : ChainId) : ChainInfo :=
  mkChainInfo id (String.eqb id "100" || String.eqb id "137").

End Fixture.

(** *** The getters on the fixture registry *)

Example resolution_on_network :
  getSafeContractDeployment Fixture.deployments Fixture.semverSatisfies "1"
    Fixture.getChainById "1.1.1"
  = ([RegistryLookup SafeSingleton (mkFilter (Some "1.1.1") (Some "1"))],
     Returned (Some Fixture.safe_1_1_1)).
Proof. vm_compute. reflexivity. Qed.

Example resolution_version_only :
  getSafeContractDeployment Fixture.deployments Fixture.semverSatisfies "5"
    Fixture.getChainById "1.1.1"
  = ([RegistryLookup SafeSingleton (mkFilter (Some "1.1.1") (Some "5"));
      RegistryLookup SafeSingleton (mkFilter (Some "1.1.1") None)],
     Returned (Some Fixture.safe_1_1_1)).
Proof. vm_compute. reflexivity. Qed.

Example resolution_legacy :
  getSafeContractDeployment Fixture.deployments Fixture.semverSatisfies "1"
    Fixture.getChainById "0.1.0"
  = ([RegistryLookup SafeSingleton (mkFilter (Some "0.1.0") (Some "1"));
      RegistryLookup SafeSingleton (mkFilter (Some "0.1.0") None);
      RegistryLookup SafeSingleton (mkFilter (Some "1.0.0") None)],
     Returned (Some Fixture.safe_1_0_0)).
Proof. vm_compute. reflexivity. Qed.

Example resolution_miss :
  getSafeContractDeployment Fixture.deployments Fixture.semverSatisfies "1"
    Fixture.getChainById "2.0.0"
  = ([RegistryLookup SafeSingleton (mkFilter (Some "2.0.0") (Some "1"));
      RegistryLookup SafeSingleton (mkFilter (Some "2.0.0") None)],
     Returned None).
Proof. vm_compute. reflexivity. Qed.

Example resolution_l2_table :
  getSafeContractDeployment Fixture.deployments Fixture.semverSatisfies "100"
    Fixture.getChainById "1.3.0"
  = ([RegistryLookup SafeL2Singleton (mkFilter (Some "1.3.0") (Some "100"))],
     Returned (Some Fixture.safeL2_1_3_0)).
Proof. vm_compute. reflexivity. Qed.

Example resolution_l1_table_on_l2_chain :
  getSafeContractDeployment Fixture.deployments Fixture.semverSatisfies "100"
    Fixture.getChainById "1.1.1"
  = ([RegistryLookup SafeSingleton (mkFilter (Some "1.1.1") (Some "100"));
      RegistryLookup SafeSingleton (mkFilter (Some "1.1.1") None)],
     Returned (Some Fixture.safe_1_1_1)).
Proof. vm_compute. reflexivity. Qed.

(** Chain 5 has no address in the fixture: the version-only entry supplies
    the ABI and the literal supplies the address. *)
Lemma contract_getters_literal_address_witness :
  outcome (getGnosisSafeContractInstance Fixture.deployments Fixture.semverSatisfies "5"
             Fixture.getChainById "1.3.0" "5")
    = Returned (mkContract (Some ["setup"; "execTransaction"])
                  (Some "0x4f9b1def3a0f6747bf8c870a27d3decdf029100e"))
  /\ outcome (getProxyFactoryContractInstance Fixture.deployments "1.3.0" "5")
    = Returned (mkContract (Some ["createProxyWithNonce"])
                  (Some "0x4f9b1def3a0f6747bf8c870a27d3decdf029100e")).
Proof.
  split.
  - apply (proj1
      (contract_getters_literal_address_or_throw Fixture.deployments Fixture.semverSatisfies
         "5" Fixture.getChainById "1.3.0" "5") Fixture.safe_1_3_0).
    + vm_compute. reflexivity.
    + left. vm_compute. reflexivity.
  - apply (proj1 (proj2 (proj2
      (contract_getters_literal_address_or_throw Fixture.deployments Fixture.semverSatisfies
         "5" Fixture.getChainById "1.3.0" "5"))) Fixture.proxyFactory_1_3_0).
    + right. split; vm_compute; reflexivity.
    + left. vm_compute. reflexivity.
Defined.

(** With no deployment in the registry every lookup misses, and both
    getters throw: the literal address is of no use without an ABI.  So it
    is not the case that the getters never throw when the lookups miss. *)
Lemma contract_getters_throw_without_deployment :
  outcome (getGnosisSafeContractInstance Fixture.noDeployments Fixture.semverSatisfies "5"
             Fixture.getChainById "1.3.0" "5")
    = Thrown (Error "You must provide the json interface of the contract when instantiating a contract object.")
  /\ outcome (getProxyFactoryContractInstance Fixture.noDeployments "1.3.0" "5")
    = Thrown (Error "You must provide the json interface of the contract when instantiating a contract object.")
  /\ ~ (forall (deployments : DeploymentTable -> DeploymentFilter -> option SingletonDeployment)
          (LATEST_SAFE_VERSION : string) (chainId : ChainId),
          deployments ProxyFactory (mkFilter (Some LATEST_SAFE_VERSION) (Some chainId)) = None ->
          deployments ProxyFactory (mkFilter (Some LATEST_SAFE_VERSION) None) = None ->
          isThrown (outcome (getProxyFactoryContractInstance deployments LATEST_SAFE_VERSION
                               chainId)) = false).
Proof.
  split; [vm_compute; reflexivity|]. split; [vm_compute; reflexivity|].
  intros H. specialize (H Fixture.noDeployments "1.3.0" "5" eq_refl eq_refl).
  vm_compute in H. discriminate H.
Qed.

Example getSignMessageLibAddress_resolved :
  outcome (getSignMessageLibAddress Fixture.deployments "1")
  = Returned (Some "0xA65387F16B013cf2Af4605Ad8aA5ec25a2cbA3a2").
Proof. vm_compute. reflexivity. Qed.

Example getSignMessageLibAddress_unresolved :
  outcome (getSignMessageLibAddress Fixture.deployments "5")
  = Thrown (Error "SignMessageLib contract not found for chainId: 5").
Proof. vm_compute. reflexivity. Qed.

(** On chain 5 the default entry is in use, lists no address for the
    chain, and the getter throws. *)
Lemma getSignMessageLibAddress_throws_witness :
  isThrown (outcome (getSignMessageLibAddress Fixture.deployments "5")) = true.
Proof.
  apply (proj1 (getSignMessageLibAddress_throws_iff_no_address Fixture.deployments "5")).
  split; [discriminate|].
  assert (E2 : Fixture.deployments SignMessageLib (mkFilter None None)
               = Some Fixture.signMessageLib_1_3_0)
    by (vm_compute; reflexivity).
  intros d [H | [_ H]].
  - vm_compute in H. discriminate H.
  - rewrite E2 in H. injection H as <-. left. vm_compute. reflexivity.
Defined.

(** The fixture has a default SignMessageLib entry, and the getter throws
    on chain 5 all the same.  So it is not the case that the getter throws
    exactly when there is no entry for the chain, no default entry and no
    hardcoded address. *)
Lemma getSignMessageLibAddress_throws_despite_default_entry :
  Fixture.deployments SignMessageLib noFilter = Some Fixture.signMessageLib_1_3_0
  /\ outcome (getSignMessageLibAddress Fixture.deployments "5")
     = Thrown (Error "SignMessageLib contract not found for chainId: 5")
  /\ ~ (forall (deployments : DeploymentTable -> DeploymentFilter -> option SingletonDeployment)
          (chainId : ChainId),
          isThrown (outcome (getSignMessageLibAddress deployments chainId)) = true
          <-> deployments SignMessageLib (mkFilter None (Some chainId)) = None
              /\ deployments SignMessageLib noFilter = None
              /\ chainId <> "1666600000").
Proof.
  assert (E2 : Fixture.deployments SignMessageLib noFilter
               = Some Fixture.signMessageLib_1_3_0)
    by (vm_compute; reflexivity).
  split; [exact E2|]. split; [vm_compute; reflexivity|].
  intros H. destruct (H Fixture.deployments "5") as [Hthrow _].
  destruct Hthrow as (_ & Hnone & _); [vm_compute; reflexivity|].
  rewrite E2 in Hnone. discriminate Hnone.
Qed.

(** The fixture registry has another address for chain 1666600000; the
    getter returns the hardcoded one. *)
Example hardcoded_overrides_registry :
  networkAddressOf (Fixture.deployments SignMessageLib (mkFilter None (Some "1666600000")))
    "1666600000"
    = Some "0xA65387F16B013cf2Af4605Ad8aA5ec25a2cbA3a2"
  /\ outcome (getSignMessageLibAddress Fixture.deployments "1666600000")
    = Returned (Some "0x1b02dA8Cb0d097eB8D57A175b88c7D8b47997506").
Proof. split; vm_compute; reflexivity. Qed.

(** A rejection with a built-in error: the catch branch raises. *)
Lemma getMasterCopyAddress_rejected_witness :
  getMasterCopyAddressFromProxyAddress (fun _ => Thrown (Error "Network Error"))
    "0x57CB13cbef735FbDD65f5f2866638c546464E45F"
  = ([], Thrown (TypeError "e.log is not a function")).
Proof.
  apply (proj1 (getMasterCopyAddress_rejected (fun _ => Thrown (Error "Network Error"))
                  "0x57CB13cbef735FbDD65f5f2866638c546464E45F" (Error "Network Error")
                  eq_refl)).
  reflexivity.
Defined.

(** A rejection with a value that has a [log] method: the catch branch
    calls it and the function returns [undefined].  So it is not the case
    that the function fails on every rejection of [getSafeInfo]. *)
Lemma getMasterCopyAddress_catch_can_succeed :
  let e := mkErrorValue "CodedException" "Code 605: Error fetching safe info" true in
  getMasterCopyAddressFromProxyAddress (fun _ => Thrown e)
    "0x57CB13cbef735FbDD65f5f2866638c546464E45F"
  = ([LogMethodCalled e], Returned None)
  /\ ~ (forall (getSafeInfo : string -> Outcome SafeInfo) (proxyAddress : string) (e : ErrorValue),
          getSafeInfo proxyAddress = Thrown e ->
          isThrown (outcome (getMasterCopyAddressFromProxyAddress getSafeInfo proxyAddress))
            = true).
Proof.
  cbv zeta. split; [reflexivity|].
  intros H.
  specialize (H (fun _ => Thrown (mkErrorValue "CodedException" "Code 605" true))
                "0x57CB13cbef735FbDD65f5f2866638c546464E45F" _ eq_refl).
  discriminate H.
Qed.

(** *** The instance getters and the module state on the fixture registry *)

(** The fixture registry with a fallback handler and a multi-send
    deployment on chain 1. *)
Definition fallbackHandler_1_3_0 : SingletonDeployment :=
  mkDeployment "CompatibilityFallbackHandler" "1.3.0" true ["isValidSignature"]
    (<["1" := "0xf48f2B2d2a534e402487b3ee7C18c33Aec0Fe5e4"]> ∅).

Definition multiSendCallOnly_1_3_0 : SingletonDeployment :=
  mkDeployment "MultiSendCallOnly" "1.3.0" true ["multiSend"]
    (<["1" := "0x40A2aCCbd92BCA938b02010E17A5b8929b49130D"]> ∅).

Definition completeRegistry (t : DeploymentTable) (f : DeploymentFilter)
  : option SingletonDeployment :=
  match t with
  | FallbackHandler => Fixture.findDeployment f [fallbackHandler_1_3_0]
  | MultiSendCallOnly => Fixture.findDeployment f [multiSendCallOnly_1_3_0]
  | _ => Fixture.deployments t f
  end.

Lemma instance_getters_use_registry_address_witness :
  outcome (getGnosisSafeContractInstance Fixture.deployments Fixture.semverSatisfies "1"
             Fixture.getChainById "1.3.0" "1")
    = Returned (mkContract (Some ["setup"; "execTransaction"])
                  (Some "0xd9Db270c1B5E3Bd161E8c8503c55cEABeE709552"))
  /\ outcome (getProxyFactoryContractInstance Fixture.deployments "1.3.0" "1")
    = Returned (mkContract (Some ["createProxyWithNonce"])
                  (Some "0xa6B71E26C5e0845f74c812102Ca7114b6a896AB2")).
Proof.
  split.
  - apply (proj1 (instance_getters_use_registry_address Fixture.deployments
                    Fixture.semverSatisfies "1" Fixture.getChainById "1.3.0" "1"
                    Fixture.safe_1_3_0 "0xd9Db270c1B5E3Bd161E8c8503c55cEABeE709552"
                    eq_refl eq_refl)).
    vm_compute. reflexivity.
  - apply (proj1 (proj2 (instance_getters_use_registry_address Fixture.deployments
                    Fixture.semverSatisfies "1" Fixture.getChainById "1.3.0" "1"
                    Fixture.proxyFactory_1_3_0 "0xa6B71E26C5e0845f74c812102Ca7114b6a896AB2"
                    eq_refl eq_refl))).
    vm_compute. reflexivity.
Defined.

(** On chain 5 the fallback handler entry lists no address: the contract
    is created from its ABI at the literal.  Without an entry the getter
    throws. *)
Lemma fallback_handler_and_multisend_witness :
  outcome (getFallbackHandlerContractInstance completeRegistry "1.3.0" "5")
    = Returned (mkContract (Some ["isValidSignature"])
                  (Some "0xC5d654bcE1220241FCe1f0F1D6b9E04f75175452"))
  /\ outcome (getMultiSendContractInstance Fixture.deployments "5")
    = Thrown (Error "You must provide the json interface of the contract when instantiating a contract object.").
Proof.
  split.
  - apply (proj1 (fallback_handler_and_multisend_literal_or_throw completeRegistry
                    "1.3.0" "5") fallbackHandler_1_3_0).
    + vm_compute. reflexivity.
    + left. vm_compute. reflexivity.
  - apply (proj2 (proj2 (proj2
             (fallback_handler_and_multisend_literal_or_throw Fixture.deployments
                "1.3.0" "5")))).
    vm_compute. reflexivity.
Defined.

Lemma signMessageLib_getters_agree_witness :
  outcome (getSignMessageLibContractInstance Fixture.deployments "1")
    = Returned (mkContract (Some ["signMessage"])
                  (Some "0xA65387F16B013cf2Af4605Ad8aA5ec25a2cbA3a2"))
  /\ outcome (getSignMessageLibContractInstance Fixture.deployments "5")
    = Thrown (Error "SignMessageLib contract not found for chainId: 5").
Proof.
  split.
  - apply (proj1 (proj2 (proj1 (proj2 (proj2 (proj2
             (signMessageLib_getters_agree Fixture.deployments "1"))))
             Fixture.signMessageLib_1_3_0 ltac:(vm_compute; reflexivity))
             (Some "0xA65387F16B013cf2Af4605Ad8aA5ec25a2cbA3a2"))).
    vm_compute. reflexivity.
  - apply (proj1 (proj2 (signMessageLib_getters_agree Fixture.deployments "5"))
             (Error "SignMessageLib contract not found for chainId: 5")).
    vm_compute. reflexivity.
Defined.

(** Without any SignMessageLib entry the hardcoded address is still
    handed to the constructor, which throws for want of an ABI. *)
Example getSignMessageLibContractInstance_without_entry :
  outcome (getSignMessageLibAddress Fixture.noDeployments "1666600000")
    = Returned (Some "0x1b02dA8Cb0d097eB8D57A175b88c7D8b47997506")
  /\ outcome (getSignMessageLibContractInstance Fixture.noDeployments "1666600000")
    = Thrown (Error "You must provide the json interface of the contract when instantiating a contract object.").
Proof. split; vm_compute; reflexivity. Qed.

Lemma getMasterCopyAddress_fulfilled_defined_witness :
  exists a,
    truthyString a = true
    /\ outcome (getMasterCopyAddressFromProxyAddress (fun _ => Returned (mkSafeInfo None))
                  "0x57CB13cbef735FbDD65f5f2866638c546464E45F")
       = Returned (Some a).
Proof.
  destruct (getMasterCopyAddress_fulfilled_defined (fun _ => Returned (mkSafeInfo None))
              "0x57CB13cbef735FbDD65f5f2866638c546464E45F" (mkSafeInfo None) eq_refl)
    as (a & Ha & Hout & _).
  exists a. split; [exact Ha | exact Hout].
Defined.

Example getGnosisSafeInstanceAt_legacy_version :
  outcome (getGnosisSafeInstanceAt Fixture.deployments Fixture.semverSatisfies "1"
             Fixture.getChainById "0x57CB13cbef735FbDD65f5f2866638c546464E45F" "0.1.0")
  = Returned (mkContract (Some ["setup"; "execTransaction"])
                (Some "0x57CB13cbef735FbDD65f5f2866638c546464E45F")).
Proof. vm_compute. reflexivity. Qed.

Example getGnosisSafeInstanceAt_unknown_version :
  getGnosisSafeInstanceAt Fixture.deployments Fixture.semverSatisfies "1"
    Fixture.getChainById "0x57CB13cbef735FbDD65f5f2866638c546464E45F" "2.0.0"
  = ([RegistryLookup SafeSingleton (mkFilter (Some "2.0.0") (Some "1"));
      RegistryLookup SafeSingleton (mkFilter (Some "2.0.0") None)],
     Thrown (Error "You must provide the json interface of the contract when instantiating a contract object.")).
Proof. vm_compute. reflexivity. Qed.

(** The module variables after [instantiateSafeContracts] on chain 1 of
    the complete registry. *)
Definition fixtureContracts : Contracts :=
  mkContracts
    (Some (mkContract (Some ["createProxyWithNonce"])
             (Some "0xa6B71E26C5e0845f74c812102Ca7114b6a896AB2")))
    (Some (mkContract (Some ["setup"; "execTransaction"])
             (Some "0xd9Db270c1B5E3Bd161E8c8503c55cEABeE709552")))
    (Some (mkContract (Some ["isValidSignature"])
             (Some "0xf48f2B2d2a534e402487b3ee7C18c33Aec0Fe5e4")))
    (Some (mkContract (Some ["multiSend"])
             (Some "0x40A2aCCbd92BCA938b02010E17A5b8929b49130D"))).

Example instantiateSafeContracts_on_complete_registry :
  instantiateSafeContracts completeRegistry Fixture.semverSatisfies "1"
    Fixture.getChainById "1.3.0" uninitialised
  = ([RegistryLookup ProxyFactory (mkFilter (Some "1.3.0") (Some "1"));
      RegistryLookup SafeSingleton (mkFilter (Some "1.3.0") (Some "1"));
      RegistryLookup FallbackHandler (mkFilter (Some "1.3.0") (Some "1"));
      RegistryLookup MultiSendCallOnly (mkFilter None (Some "1"))],
     fixtureContracts, Returned tt).
Proof. vm_compute. reflexivity. Qed.

(** The fixture registry has no fallback handler: the third getter throws
    after two assignments. *)
Example instantiateSafeContracts_on_fixture :
  instantiateSafeContracts Fixture.deployments Fixture.semverSatisfies "1"
    Fixture.getChainById "1.3.0" uninitialised
  = ([RegistryLookup ProxyFactory (mkFilter (Some "1.3.0") (Some "1"));
      RegistryLookup SafeSingleton (mkFilter (Some "1.3.0") (Some "1"));
      RegistryLookup FallbackHandler (mkFilter (Some "1.3.0") (Some "1"));
      RegistryLookup FallbackHandler (mkFilter (Some "1.3.0") None)],
     mkContracts (proxyFactoryMaster fixtureContracts) (safeMaster fixtureContracts) None None,
     Thrown (Error "You must provide the json interface of the contract when instantiating a contract object.")).
Proof. vm_compute. reflexivity. Qed.

Lemma instantiateSafeContracts_assigns_all_witness :
  exists tr,
    instantiateSafeContracts completeRegistry Fixture.semverSatisfies "1"
      Fixture.getChainById "1.3.0" uninitialised
    = (tr, fixtureContracts, Returned tt).
Proof.
  destruct (instantiateSafeContracts_assigns_all completeRegistry Fixture.semverSatisfies "1"
              Fixture.getChainById "1.3.0" uninitialised
              Fixture.proxyFactory_1_3_0 Fixture.safe_1_3_0
              fallbackHandler_1_3_0 multiSendCallOnly_1_3_0
              ltac:(vm_compute; reflexivity) ltac:(vm_compute; reflexivity)
              ltac:(vm_compute; reflexivity) ltac:(vm_compute; reflexivity))
    as (tr & pf & sm & fh & ms & Heq & H1 & H2 & H3 & H4 & _).
  vm_compute in H1, H2, H3, H4.
  injection H1 as <-. injection H2 as <-. injection H3 as <-. injection H4 as <-.
  exists tr. exact Heq.
Defined.

Lemma getSafeMasterContract_defined_witness :
  exists tr st' c,
    getSafeMasterContract completeRegistry Fixture.semverSatisfies "1"
      Fixture.getChainById "1.3.0" uninitialised
    = (tr, st', Returned (Some c))
    /\ jsonInterface c = Some ["setup"; "execTransaction"]
    /\ instantiated st' = true.
Proof.
  destruct (getSafeMasterContract_defined completeRegistry Fixture.semverSatisfies "1"
              Fixture.getChainById "1.3.0" uninitialised
              Fixture.proxyFactory_1_3_0 Fixture.safe_1_3_0
              fallbackHandler_1_3_0 multiSendCallOnly_1_3_0
              ltac:(vm_compute; reflexivity) ltac:(vm_compute; reflexivity)
              ltac:(vm_compute; reflexivity) ltac:(vm_compute; reflexivity))
    as (tr & st' & c & Heq & _ & Habi & _ & Hinst).
  exists tr, st', c. split; [exact Heq|]. split; [exact Habi | exact Hinst].
Defined.


Lemma address_getters_after_instantiation_witness :
  getSafeMasterContractAddress fixtureContracts
    = ([], fixtureContracts, Returned (Some "0xd9Db270c1B5E3Bd161E8c8503c55cEABeE709552"))
  /\ getFallbackHandlerContractAddress fixtureContracts
    = ([], fixtureContracts, Returned (Some "0xf48f2B2d2a534e402487b3ee7C18c33Aec0Fe5e4")).
Proof.
  destruct (address_getters_after_instantiation fixtureContracts eq_refl)
    as (sm & fh & ms & Hsm & Hfh & _ & H1 & H2 & _).
  injection Hsm as <-. injection Hfh as <-. split; [exact H1 | exact H2].
Defined.

Lemma address_getters_before_instantiation_witness :
  exists e, getSafeMasterContractAddress uninitialised = ([], uninitialised, Thrown e)
            /\ err_name e = "TypeError".
Proof.
  exact (proj1 (address_getters_before_instantiation uninitialised) eq_refl).
Defined.

End SafeContracts.

(** ** src/utils/googleTagManager.ts *)

Module GoogleTagManager.
Import Js.

(** [Location] of the history library. *)
Record Location := mkLocation {
  pathname : string;
  search : string;
  hash : string
}.

Inductive GTM_EVENT :=
| PAGEVIEW
| CLICK
| META.

Definition GTM_EVENT_value (e : GTM_EVENT) : string :=
  match e with
  | PAGEVIEW => "pageview"
  | CLICK => "customClick"
  | META => "metadata"
  end.

(** The values a data layer property or a label can hold.  Numbers are
    IEEE 754 doubles. *)
Inductive JsValue :=
| VUndefined
| VString (s : string)
| VNumber (x : spec_float)
| VBoolean (b : bool).

(** Truthiness: [undefined], the empty string, [0], [-0], [NaN] and
    [false] are falsy. *)
Definition truthyValue (v : JsValue) : bool :=
  match v with
  | VUndefined => false
  | VString s => truthyString s
  | VNumber S754_nan => false
  | VNumber (S754_zero _) => false
  | VNumber _ => true
  | VBoolean b => b
  end.

(** An object literal, by its own properties. *)
Abbreviation JsObject := (gmap string JsValue).

(** [...(v && obj)] inside an object literal: the properties of [obj] when
    [v] is truthy; a falsy [v] is what is spread, and it has no own
    properties. *)
Definition spreadAnd (v : JsValue) (obj : JsObject) : JsObject :=
  if truthyValue v then obj else ∅.

Inductive Event :=
| ConsoleInfo (tag : string) (dataLayer : JsObject)
| TagManagerDataLayer (dataLayer : JsObject).

Section WithEnvironment.

(** [matchPath] of react-router, applied to a pathname and a route path:
    the parameters of the match, or nothing. *)
Variable matchPath : string -> string -> option (gmap string string).
(** [src/routes/routes]. *)
Variable ADDRESSED_ROUTE : string.
Variable TRANSACTIONS_SINGULAR : string.
Variable SAFE_ADDRESS_SLUG : string.
Variable TRANSACTION_ID_SLUG : string.
Variable history_location : Location.
(** [src/utils/constants], [src/config] and the document. *)
Variable IS_PRODUCTION : bool.
Variable debugBadge : bool.
Variable _getChainId : string.

(** [match.params[slug]] as the pattern argument of [replace]: a missing
    parameter is converted to the string "undefined". *)
Definition paramPattern (params : gmap string string) (slug : string) : string :=
  default "undefined" (params !! slug).

Definition getAnonymizedLocation (location : option Location) : string :=
  let '(mkLocation pathname search hash) := default history_location location in
  let ANON_SAFE_ADDRESS := "SAFE_ADDRESS" in
  let ANON_TX_ID := "TRANSACTION_ID" in
  let anonPathname := pathname in
  let safeAddressMatch := matchPath pathname ADDRESSED_ROUTE in
  let anonPathname :=
    match safeAddressMatch with
    | Some params => replace (paramPattern params SAFE_ADDRESS_SLUG) ANON_SAFE_ADDRESS anonPathname
    | None => anonPathname
    end in
  let txIdMatch := matchPath pathname TRANSACTIONS_SINGULAR in
  let anonPathname :=
    match txIdMatch with
    | Some params => replace (paramPattern params TRANSACTION_ID_SLUG) ANON_TX_ID anonPathname
    | None => anonPathname
    end in
  anonPathname +:+ search +:+ hash.

Definition SHOULD_LOAD_GTM : bool := IS_PRODUCTION || debugBadge.

Definition trackEvent (event : GTM_EVENT) (category action : string) (label : JsValue)
  : M Event unit :=
  let dataLayer : JsObject :=
    spreadAnd label {[ "eventLabel" := label ]}
    ∪ <["event" := VString (GTM_EVENT_value event)]>
       (<["chainId" := VString _getChainId]>
        (<["eventCategory" := VString category]>
         (<["eventAction" := VString action]> ∅))) in
  run (if negb IS_PRODUCTION then emit (ConsoleInfo "[GTM] -" dataLayer) else ret tt);
  if SHOULD_LOAD_GTM then emit (TagManagerDataLayer dataLayer) else ret tt.

(** A string that can stand as a path segment after a slash: it is not
    empty and does not start with a slash. *)
Definition startsSegment (s : string) : bool :=
  match s with
  | EmptyString => false
  | String c _ => negb (Ascii.eqb c "/")
  end.

(** The transaction-id step, applied to a pathname whose address is
    already anonymized. *)
Definition anonymizeTxId (txIdMatch : option (gmap string string)) (anonPathname : string)
  : string :=
  match txIdMatch with
  | Some params => replace (paramPattern params TRANSACTION_ID_SLUG) "TRANSACTION_ID" anonPathname
  | None => anonPathname
  end.

(** *** getAnonymizedLocation *)

Lemma replace_first_segment (a replacement rest : string) :
  startsSegment a = true ->
  replace a replacement ("/" +:+ a +:+ rest) = "/" +:+ replacement +:+ rest.
Proof.
  intros Ha. apply replace_firstAt.
  destruct a as [|c a]; [discriminate Ha|].
  cbn [startsSegment] in Ha. apply negb_true_iff in Ha.
  apply Ascii.eqb_neq in Ha.
  change (negb (String.prefix (String c a) (String "/" ("" +:+ String c a +:+ rest)))
          && true = true).
  cbn [String.prefix]. destruct (Ascii.ascii_dec c "/"); [contradiction | reflexivity].
Qed.

(** On a pathname that starts with the safe-address segment, the address
    is replaced where it stands, and search and hash follow unchanged. *)
Lemma getAnonymizedLocation_safe_address
  (a rest search hash : string) (params : gmap string string) :
  matchPath ("/" +:+ a +:+ rest) ADDRESSED_ROUTE = Some params ->
  params !! SAFE_ADDRESS_SLUG = Some a ->
  startsSegment a = true ->
  getAnonymizedLocation (Some (mkLocation ("/" +:+ a +:+ rest) search hash))
  = anonymizeTxId (matchPath ("/" +:+ a +:+ rest) TRANSACTIONS_SINGULAR)
      ("/SAFE_ADDRESS" +:+ rest)
    +:+ search +:+ hash.
Proof.
  intros Hm Hp Ha.
  cbv beta iota zeta delta [getAnonymizedLocation anonymizeTxId paramPattern from_option id].
  rewrite Hm, Hp.
  rewrite (replace_first_segment a "SAFE_ADDRESS" rest Ha). reflexivity.
Qed.

(** X1.  Two locations that differ in the safe-address segment only, with the
    same transaction id matched in both, are anonymized to one string.  In
    it the address is replaced by [SAFE_ADDRESS] where it stands, the
    transaction-id step is applied to the rest, and search and hash follow
    unchanged. *)
Lemma getAnonymizedLocation_hides_safe_address
  (a1 a2 rest search hash : string) (params1 params2 : gmap string string) :
  matchPath ("/" +:+ a1 +:+ rest) ADDRESSED_ROUTE = Some params1 ->
  params1 !! SAFE_ADDRESS_SLUG = Some a1 ->
  startsSegment a1 = true ->
  matchPath ("/" +:+ a2 +:+ rest) ADDRESSED_ROUTE = Some params2 ->
  params2 !! SAFE_ADDRESS_SLUG = Some a2 ->
  startsSegment a2 = true ->
  (fun m => paramPattern m TRANSACTION_ID_SLUG) <$> matchPath ("/" +:+ a1 +:+ rest) TRANSACTIONS_SINGULAR
  = (fun m => paramPattern m TRANSACTION_ID_SLUG) <$> matchPath ("/" +:+ a2 +:+ rest) TRANSACTIONS_SINGULAR ->
  getAnonymizedLocation (Some (mkLocation ("/" +:+ a1 +:+ rest) search hash))
  = getAnonymizedLocation (Some (mkLocation ("/" +:+ a2 +:+ rest) search hash))
  /\ getAnonymizedLocation (Some (mkLocation ("/" +:+ a1 +:+ rest) search hash))
     = match matchPath ("/" +:+ a1 +:+ rest) TRANSACTIONS_SINGULAR with
       | Some txParams =>
           replace (default "undefined" (txParams !! TRANSACTION_ID_SLUG)) "TRANSACTION_ID"
             ("/SAFE_ADDRESS" +:+ rest)
       | None => "/SAFE_ADDRESS" +:+ rest
       end
       +:+ search +:+ hash.
Proof.
  intros Hm1 Hp1 Ha1 Hm2 Hp2 Ha2 Htx.
  rewrite (getAnonymizedLocation_safe_address a1 rest search hash params1 Hm1 Hp1 Ha1).
  rewrite (getAnonymizedLocation_safe_address a2 rest search hash params2 Hm2 Hp2 Ha2).
  split; [|reflexivity].
  unfold anonymizeTxId.
  destruct (matchPath ("/" +:+ a1 +:+ rest) TRANSACTIONS_SINGULAR) as [m1|];
    destruct (matchPath ("/" +:+ a2 +:+ rest) TRANSACTIONS_SINGULAR) as [m2|];
    cbn in Htx; try discriminate Htx; [|reflexivity].
  injection Htx as ->. reflexivity.
Qed.

(** X2.  A transaction id is replaced where it stands provided it does not
    occur earlier in [/SAFE_ADDRESS/transactions/]. *)
Lemma getAnonymizedLocation_tx_id
  (a t rest search hash : string) (params txParams : gmap string string) :
  let pathname := "/" +:+ a +:+ "/transactions/" +:+ t +:+ rest in
  matchPath pathname ADDRESSED_ROUTE = Some params ->
  params !! SAFE_ADDRESS_SLUG = Some a ->
  startsSegment a = true ->
  matchPath pathname TRANSACTIONS_SINGULAR = Some txParams ->
  txParams !! TRANSACTION_ID_SLUG = Some t ->
  firstAt t "/SAFE_ADDRESS/transactions/" (t +:+ rest) = true ->
  getAnonymizedLocation (Some (mkLocation pathname search hash))
  = "/SAFE_ADDRESS/transactions/TRANSACTION_ID" +:+ rest +:+ search +:+ hash.
Proof.
  intros pathname Hm Hp Ha Htm Htp Hfirst. subst pathname.
  rewrite (getAnonymizedLocation_safe_address a _ search hash params Hm Hp Ha).
  rewrite Htm. cbv beta iota zeta delta [anonymizeTxId paramPattern from_option id].
  rewrite Htp.
  change ("/SAFE_ADDRESS" +:+ "/transactions/" +:+ t +:+ rest)
    with ("/SAFE_ADDRESS/transactions/" +:+ t +:+ rest).
  rewrite (replace_firstAt t "TRANSACTION_ID" "/SAFE_ADDRESS/transactions/" rest Hfirst).
  reflexivity.
Qed.

(** *** trackEvent *)

(** C10.  The data layer that [trackEvent] logs and hands to the tag
    manager has no [eventLabel] property when the label is falsy -- absent,
    the number 0, [false] or the empty string -- and has the label under
    [eventLabel] for every truthy label. *)
Theorem trackEvent_eventLabel (event : GTM_EVENT) (category action : string) (label : JsValue) :
  (exists dataLayer : JsObject,
      trace (trackEvent event category action label)
        = (if negb IS_PRODUCTION then [ConsoleInfo "[GTM] -" dataLayer] else [])
          ++ (if SHOULD_LOAD_GTM then [TagManagerDataLayer dataLayer] else [])
      /\ dataLayer !! "eventLabel" = (if truthyValue label then Some label else None)
      /\ dataLayer !! "eventAction" = Some (VString action))
  /\ truthyValue VUndefined = false
  /\ truthyValue (VNumber (S754_zero false)) = false
  /\ truthyValue (VBoolean false) = false
  /\ truthyValue (VString "") = false.
Proof.
  split; [|repeat split].
  unfold trackEvent. eexists. split; [|split].
  - destruct IS_PRODUCTION, SHOULD_LOAD_GTM; reflexivity.
  - unfold spreadAnd. destruct (truthyValue label).
    + apply lookup_union_Some_l. apply lookup_singleton_eq.
    + rewrite (left_id_L ∅ (∪)). by simplify_map_eq.
  - unfold spreadAnd. destruct (truthyValue label).
    + rewrite lookup_union_r; [by simplify_map_eq|]. by apply lookup_singleton_ne.
    + rewrite (left_id_L ∅ (∪)). by simplify_map_eq.
Qed.

(** *** Loading and unloading the tag manager *)

(** [src/utils/constants]: the container id and the three auth tokens, read
    from the build environment, and whether [window.dataLayer] exists. *)
Variable GOOGLE_TAG_MANAGER_ID : option string.
Variable GOOGLE_TAG_MANAGER_AUTH_LIVE : option string.
Variable GOOGLE_TAG_MANAGER_AUTH_LATEST : option string.
Variable GOOGLE_TAG_MANAGER_DEVELOPMENT_AUTH : option string.
Variable windowDataLayer : bool.

Inductive GTMEnvironment :=
| LIVE
| LATEST
| DEVELOPMENT.

Record GTMEnvironmentArgs := mkEnvironmentArgs {
  auth : option string;
  preview : string
}.

Definition GTM_ENV_AUTH (env : GTMEnvironment) : GTMEnvironmentArgs :=
  match env with
  | LIVE => mkEnvironmentArgs GOOGLE_TAG_MANAGER_AUTH_LIVE "env-1"
  | LATEST => mkEnvironmentArgs GOOGLE_TAG_MANAGER_AUTH_LATEST "env-2"
  | DEVELOPMENT => mkEnvironmentArgs GOOGLE_TAG_MANAGER_DEVELOPMENT_AUTH "env-3"
  end.

(** The argument of [TagManager.initialize]. *)
Record TagManagerArgs := mkTagManagerArgs {
  gtmId : option string;
  gtmAuth : option string;
  gtmPreview : string;
  gtmDataLayer : JsObject
}.

Record Cookie := mkCookie {
  cookieName : string;
  cookiePath : string
}.

Inductive Effect :=
| ConsoleWarn (message : string)
| TagManagerInitialize (args : TagManagerArgs)
| RemoveCookies (cookies : list Cookie).

Definition loadGoogleTagManager : M Effect unit :=
  if negb SHOULD_LOAD_GTM then ret tt
  else
    let GTM_ENVIRONMENT :=
      if IS_PRODUCTION then GTM_ENV_AUTH LIVE else GTM_ENV_AUTH DEVELOPMENT in
    if negb (truthy GOOGLE_TAG_MANAGER_ID) || negb (truthy (auth GTM_ENVIRONMENT))
    then
      emit (ConsoleWarn
        "[GTM] - Unable to initialize Google Tag Manager. `id` or `gtm_auth` missing.")
    else
      emit (TagManagerInitialize
        (mkTagManagerArgs GOOGLE_TAG_MANAGER_ID (auth GTM_ENVIRONMENT) (preview GTM_ENVIRONMENT)
           (<["event" := VString (GTM_EVENT_value PAGEVIEW)]>
            (<["chainId" := VString _getChainId]>
             (<["page" := VString (getAnonymizedLocation None)]> ∅))))).

Definition unloadGoogleTagManager : M Effect unit :=
  let GOOGLE_ANALYTICS_COOKIE_LIST :=
    [mkCookie "_ga" "/"; mkCookie "_gat" "/"; mkCookie "_gid" "/"] in
  if SHOULD_LOAD_GTM && windowDataLayer
  then emit (RemoveCookies GOOGLE_ANALYTICS_COOKIE_LIST)
  else ret tt.

(** X12.  [loadGoogleTagManager] does nothing when the tag manager should not
    load.  When it should, it uses the LIVE token and preview [env-1] in
    production and the DEVELOPMENT token and [env-3] otherwise -- never the
    LATEST ones -- and it initializes the tag manager, once, exactly when
    the container id and that token are both non-empty; when one is
    missing it only warns.  The page it reports is the anonymized current
    location of the history. *)
Theorem loadGoogleTagManager_initializes_when_configured :
  let token :=
    if IS_PRODUCTION then GOOGLE_TAG_MANAGER_AUTH_LIVE
    else GOOGLE_TAG_MANAGER_DEVELOPMENT_AUTH in
  let env := if IS_PRODUCTION then "env-1" else "env-3" in
  (SHOULD_LOAD_GTM = false -> loadGoogleTagManager = ([], Returned tt))
  /\ (SHOULD_LOAD_GTM = true ->
      truthy GOOGLE_TAG_MANAGER_ID && truthy token = false ->
      loadGoogleTagManager
      = ([ConsoleWarn
            "[GTM] - Unable to initialize Google Tag Manager. `id` or `gtm_auth` missing."],
         Returned tt))
  /\ (SHOULD_LOAD_GTM = true ->
      truthy GOOGLE_TAG_MANAGER_ID && truthy token = true ->
      exists dataLayer : JsObject,
        loadGoogleTagManager
        = ([TagManagerInitialize
              (mkTagManagerArgs GOOGLE_TAG_MANAGER_ID token env dataLayer)],
           Returned tt)
        /\ dataLayer !! "event" = Some (VString "pageview")
        /\ dataLayer !! "chainId" = Some (VString _getChainId)
        /\ dataLayer !! "page"
           = Some (VString (getAnonymizedLocation (Some history_location)))).
Proof.
  cbv zeta. unfold loadGoogleTagManager, GTM_ENV_AUTH.
  split; [|split].
  - intros ->. reflexivity.
  - intros -> H. destruct IS_PRODUCTION; cbn [auth negb];
      destruct (truthy GOOGLE_TAG_MANAGER_ID); cbn in H |- *;
      try rewrite H; reflexivity.
  - intros -> H. apply andb_prop in H as [Hid Htok].
    destruct IS_PRODUCTION; cbn [auth preview negb]; rewrite Hid, Htok; cbn [negb orb];
      (eexists; split; [reflexivity|]; repeat split; by simplify_map_eq).
Qed.

(** X13.  Cookies are removed only when the tag manager should load and
    [window.dataLayer] exists, and then exactly the three analytics cookies
    at path [/]; when the tag manager should not load, neither loading nor
    unloading does anything and [trackEvent] only writes to the console. *)
Theorem googleTagManager_gate :
  (SHOULD_LOAD_GTM && windowDataLayer = true ->
   unloadGoogleTagManager
   = ([RemoveCookies [mkCookie "_ga" "/"; mkCookie "_gat" "/"; mkCookie "_gid" "/"]],
      Returned tt))
  /\ (SHOULD_LOAD_GTM && windowDataLayer = false ->
      unloadGoogleTagManager = ([], Returned tt))
  /\ (SHOULD_LOAD_GTM = false ->
      loadGoogleTagManager = ([], Returned tt)
      /\ unloadGoogleTagManager = ([], Returned tt)
      /\ forall event category action label,
           exists dataLayer,
             trackEvent event category action label
             = ([ConsoleInfo "[GTM] -" dataLayer], Returned tt)).
Proof.
  unfold unloadGoogleTagManager, loadGoogleTagManager, trackEvent.
  split; [|split].
  - intros ->. reflexivity.
  - intros ->. reflexivity.
  - intros H. rewrite H. cbn [negb andb]. split; [reflexivity|]. split; [reflexivity|].
    intros event category action label.
    unfold SHOULD_LOAD_GTM in H. apply orb_false_elim in H as [-> _].
    eexists. reflexivity.
Qed.

(** X14.  The data layer of [trackEvent] always carries the event name, the
    chain id, the category and the action it was given, whatever the
    label, and has no property besides these four and [eventLabel]. *)
Theorem trackEvent_dataLayer_fields
  (event : GTM_EVENT) (category action : string) (label : JsValue) :
  exists dataLayer : JsObject,
    trace (trackEvent event category action label)
      = (if negb IS_PRODUCTION then [ConsoleInfo "[GTM] -" dataLayer] else [])
        ++ (if SHOULD_LOAD_GTM then [TagManagerDataLayer dataLayer] else [])
    /\ dataLayer !! "event" = Some (VString (GTM_EVENT_value event))
    /\ dataLayer !! "chainId" = Some (VString _getChainId)
    /\ dataLayer !! "eventCategory" = Some (VString category)
    /\ dataLayer !! "eventAction" = Some (VString action)
    /\ dom dataLayer
       = {[ "event"; "chainId"; "eventCategory"; "eventAction" ]}
         ∪ (if truthyValue label then {[ "eventLabel" ]} else (∅ : gset string)).
Proof.
  unfold trackEvent. eexists. split.
  { destruct IS_PRODUCTION, SHOULD_LOAD_GTM; reflexivity. }
  unfold spreadAnd. destruct (truthyValue label).
  - repeat split;
      try (rewrite lookup_union_r; [by simplify_map_eq | by apply lookup_singleton_ne]).
    all: rewrite dom_union_L, dom_singleton_L, !dom_insert_L, dom_empty_L; set_solver.
  - rewrite (left_id_L ∅ (∪)). repeat split; try by simplify_map_eq.
    all: rewrite !dom_insert_L, dom_empty_L; set_solver.
Qed.

End WithEnvironment.

(** *** A router to run the anonymizer on *)

Module Fixture.

(** The pieces of a path between slashes. *)
Fixpoint splitPath (s : string) : list string :=
  match s with
  | EmptyString => [EmptyString]
  | String c s' =>
      if Ascii.eqb c "/"
      then EmptyString :: splitPath s'
      else match splitPath s' with
           | h :: t => String c h :: t
           | [] => [String c EmptyString]
           end
  end.

(** Matching of a route made of literal segments and [:name] segments
    against the start of a pathname; a [:name] segment takes one non-empty
    piece of the path. *)
Fixpoint matchSegments (route path : list string) (params : gmap string string)
  : option (gmap string string) :=
  match route with
  | [] => Some params
  | r :: route' =>
      match path with
      | [] => None
      | p :: path' =>
          match r with
          | String ":" name =>
              if truthyString p then matchSegments route' path' (<[name := p]> params) else None
          | _ => if String.eqb r p then matchSegments route' path' params else None
          end
      end
  end.

Definition matchPath (pathname route : string) : option (gmap string string) :=
  matchSegments (splitPath route) (splitPath pathname) ∅.

Definition SAFE_ADDRESS_SLUG := "prefixedSafeAddress".
Definition TRANSACTION_ID_SLUG := "txId".
Definition ADDRESSED_ROUTE := "/:prefixedSafeAddress".
Definition TRANSACTIONS_SINGULAR := "/:prefixedSafeAddress/transactions/:txId".

Definition getAnonymizedLocation (pathname search hash : string) : string :=
  GoogleTagManager.getAnonymizedLocation matchPath ADDRESSED_ROUTE TRANSACTIONS_SINGULAR
    SAFE_ADDRESS_SLUG TRANSACTION_ID_SLUG (mkLocation "/" "" "")
    (Some (mkLocation pathname search hash)).

End Fixture.

Example anonymized_balances_page :
  Fixture.getAnonymizedLocation
    "/rin:0x57CB13cbef735FbDD65f5f2866638c546464E45F/balances" "?tab=coins" "#top"
  = "/SAFE_ADDRESS/balances?tab=coins#top".
Proof. vm_compute. reflexivity. Qed.

Example anonymized_transaction_page :
  Fixture.getAnonymizedLocation
    "/rin:0x57CB13cbef735FbDD65f5f2866638c546464E45F/transactions/multisig_0x57CB13cbef735FbDD65f5f2866638c546464E45F_0x73e9512853f394f4c3485752a56806f61a4a0a8b"
    "" ""
  = "/SAFE_ADDRESS/transactions/TRANSACTION_ID".
Proof. vm_compute. reflexivity. Qed.

Example anonymized_welcome_page :
  Fixture.getAnonymizedLocation "/" "" "" = "/".
Proof. vm_compute. reflexivity. Qed.

(** Two safes on the same page, on the fixture router. *)
Lemma getAnonymizedLocation_hides_safe_address_witness :
  Fixture.getAnonymizedLocation
    "/rin:0x57CB13cbef735FbDD65f5f2866638c546464E45F/balances" "?tab=coins" ""
  = Fixture.getAnonymizedLocation
    "/eth:0x1230B3d59858296A31053C1b8562Ecf89A2f888b/balances" "?tab=coins" ""
  /\ Fixture.getAnonymizedLocation
       "/rin:0x57CB13cbef735FbDD65f5f2866638c546464E45F/balances" "?tab=coins" ""
     = "/SAFE_ADDRESS/balances?tab=coins".
Proof.
  unfold Fixture.getAnonymizedLocation.
  apply (getAnonymizedLocation_hides_safe_address Fixture.matchPath Fixture.ADDRESSED_ROUTE
           Fixture.TRANSACTIONS_SINGULAR Fixture.SAFE_ADDRESS_SLUG Fixture.TRANSACTION_ID_SLUG
           (mkLocation "/" "" "")
           "rin:0x57CB13cbef735FbDD65f5f2866638c546464E45F"
           "eth:0x1230B3d59858296A31053C1b8562Ecf89A2f888b" "/balances" "?tab=coins" ""
           {[ "prefixedSafeAddress" := "rin:0x57CB13cbef735FbDD65f5f2866638c546464E45F" ]}
           {[ "prefixedSafeAddress" := "eth:0x1230B3d59858296A31053C1b8562Ecf89A2f888b" ]});
    vm_compute; reflexivity.
Defined.

Lemma getAnonymizedLocation_tx_id_witness :
  Fixture.getAnonymizedLocation
    "/rin:0x57CB13cbef735FbDD65f5f2866638c546464E45F/transactions/multisig_0x73e9/details"
    "" "#signers"
  = "/SAFE_ADDRESS/transactions/TRANSACTION_ID/details#signers".
Proof.
  unfold Fixture.getAnonymizedLocation.
  apply (getAnonymizedLocation_tx_id Fixture.matchPath Fixture.ADDRESSED_ROUTE
           Fixture.TRANSACTIONS_SINGULAR Fixture.SAFE_ADDRESS_SLUG Fixture.TRANSACTION_ID_SLUG
           (mkLocation "/" "" "")
           "rin:0x57CB13cbef735FbDD65f5f2866638c546464E45F" "multisig_0x73e9" "/details"
           "" "#signers"
           {[ "prefixedSafeAddress" := "rin:0x57CB13cbef735FbDD65f5f2866638c546464E45F" ]}
           (<[ "txId" := "multisig_0x73e9" ]>
            {[ "prefixedSafeAddress" := "rin:0x57CB13cbef735FbDD65f5f2866638c546464E45F" ]}));
    vm_compute; reflexivity.
Defined.

(** C8 at a transaction id that also occurs in the word [transactions].
    The first occurrence of the id is what [replace] rewrites, so the id
    stays in the result, and two locations that differ in the transaction
    id only are told apart. *)
Theorem getAnonymizedLocation_keeps_short_tx_id :
  Fixture.getAnonymizedLocation
    "/rin:0x57CB13cbef735FbDD65f5f2866638c546464E45F/transactions/a" "" ""
  = "/SAFE_ADDRESS/trTRANSACTION_IDnsactions/a"
  /\ Fixture.getAnonymizedLocation
    "/rin:0x57CB13cbef735FbDD65f5f2866638c546464E45F/transactions/b" "" ""
  = "/SAFE_ADDRESS/transactions/TRANSACTION_ID"
  /\ Fixture.getAnonymizedLocation
       "/rin:0x57CB13cbef735FbDD65f5f2866638c546464E45F/transactions/a" "" ""
     <> Fixture.getAnonymizedLocation
       "/rin:0x57CB13cbef735FbDD65f5f2866638c546464E45F/transactions/b" "" "".
Proof.
  split; [vm_compute; reflexivity|]. split; [vm_compute; reflexivity|].
  vm_compute. discriminate.
Qed.

(** *** trackEvent on concrete labels *)

Example trackEvent_with_label :
  trackEvent true false "4" CLICK "safe-apps" "open" (VString "tx-builder")
  = ([TagManagerDataLayer
        (<["event" := VString "customClick"]>
         (<["chainId" := VString "4"]>
          (<["eventCategory" := VString "safe-apps"]>
           (<["eventAction" := VString "open"]>
            (<["eventLabel" := VString "tx-builder"]> ∅)))))],
     Returned tt).
Proof. vm_compute. reflexivity. Qed.

Example trackEvent_zero_label :
  trackEvent true false "4" CLICK "owners" "threshold" (VNumber (S754_zero false))
  = ([TagManagerDataLayer
        (<["event" := VString "customClick"]>
         (<["chainId" := VString "4"]>
          (<["eventCategory" := VString "owners"]>
           (<["eventAction" := VString "threshold"]> ∅))))],
     Returned tt).
Proof. vm_compute. reflexivity. Qed.

Example trackEvent_false_label_in_development :
  trackEvent false false "4" META "settings" "dark-mode" (VBoolean false)
  = ([ConsoleInfo "[GTM] -"
        (<["event" := VString "metadata"]>
         (<["chainId" := VString "4"]>
          (<["eventCategory" := VString "settings"]>
           (<["eventAction" := VString "dark-mode"]> ∅))))],
     Returned tt).
Proof. vm_compute. reflexivity. Qed.

(** *** Loading and unloading on the fixture router *)

Lemma loadGoogleTagManager_witness :
  exists dataLayer : gmap string JsValue,
    loadGoogleTagManager Fixture.matchPath Fixture.ADDRESSED_ROUTE
      Fixture.TRANSACTIONS_SINGULAR Fixture.SAFE_ADDRESS_SLUG Fixture.TRANSACTION_ID_SLUG
      (mkLocation "/rin:0x57CB13cbef735FbDD65f5f2866638c546464E45F/balances" "" "")
      true false "4" (Some "GTM-TEST") (Some "live-token") None (Some "dev-token")
    = ([TagManagerInitialize
          (mkTagManagerArgs (Some "GTM-TEST") (Some "live-token") "env-1" dataLayer)],
       Returned tt)
    /\ dataLayer !! "page" = Some (VString "/SAFE_ADDRESS/balances").
Proof.
  destruct (proj2 (proj2
    (loadGoogleTagManager_initializes_when_configured Fixture.matchPath
       Fixture.ADDRESSED_ROUTE Fixture.TRANSACTIONS_SINGULAR Fixture.SAFE_ADDRESS_SLUG
       Fixture.TRANSACTION_ID_SLUG
       (mkLocation "/rin:0x57CB13cbef735FbDD65f5f2866638c546464E45F/balances" "" "")
       true false "4" (Some "GTM-TEST") (Some "live-token") None (Some "dev-token")))
    eq_refl eq_refl) as (dataLayer & Hload & _ & _ & Hpage).
  exists dataLayer. split; [exact Hload | exact Hpage].
Defined.

Example loadGoogleTagManager_without_token :
  loadGoogleTagManager Fixture.matchPath Fixture.ADDRESSED_ROUTE
    Fixture.TRANSACTIONS_SINGULAR Fixture.SAFE_ADDRESS_SLUG Fixture.TRANSACTION_ID_SLUG
    (mkLocation "/" "" "") false true "4" (Some "GTM-TEST") (Some "live-token")
    (Some "latest-token") None
  = ([ConsoleWarn
        "[GTM] - Unable to initialize Google Tag Manager. `id` or `gtm_auth` missing."],
     Returned tt).
Proof. vm_compute. reflexivity. Qed.

Lemma googleTagManager_gate_witness :
  unloadGoogleTagManager false false true = ([], Returned tt)
  /\ exists dataLayer,
       trackEvent false false "4" CLICK "owners" "add" VUndefined
       = ([ConsoleInfo "[GTM] -" dataLayer], Returned tt).
Proof.
  destruct (proj2 (proj2
    (googleTagManager_gate Fixture.matchPath Fixture.ADDRESSED_ROUTE
       Fixture.TRANSACTIONS_SINGULAR Fixture.SAFE_ADDRESS_SLUG Fixture.TRANSACTION_ID_SLUG
       (mkLocation "/" "" "") false false "4" None None None None true)) eq_refl)
    as (_ & Hunload & Htrack).
  split; [exact Hunload | exact (Htrack CLICK "owners" "add" VUndefined)].
Defined.

End GoogleTagManager.

(** ** The safe selectors *)

Module SafeSelectors.
Import Js.

(** One entry of a safe's balances. *)
Record SafeBalance := mkBalance {
  tokenAddress : option string;
  tokenBalance : string;
  fiatBalance : option string
}.

(** The [Token] record of the tokens store. *)
Record Token := mkToken {
  address : string;
  name : string;
  symbol : string;
  decimals : nat;
  logoUri : string;
  balance : SafeBalance
}.

(** [token.set('balance', b)] *)
Definition set_balance (b : SafeBalance) (t : Token) : Token :=
  mkToken (address t) (name t) (symbol t) (decimals t) (logoUri t) b.

(** What the store holds as a safe's balances: an array since v3.5.0, an
    object keyed by token address in safes persisted before, or nothing. *)
Inductive PersistedBalances :=
| BalancesArray (balances : list SafeBalance)
| BalancesObject (entries : gmap string string)
| BalancesUndefined.

Definition isArray (v : PersistedBalances) : bool :=
  match v with
  | BalancesArray _ => true
  | _ => false
  end.

(** The elements that [forEach] visits. *)
Definition elements (v : PersistedBalances) : list SafeBalance :=
  match v with
  | BalancesArray balances => balances
  | _ => []
  end.

Record SafeRecord := mkSafe {
  safeAddress : string;
  ethBalance : string
}.

Inductive Event :=
| SentryCaptureMessage (message : string).

Section WithEnvironment.

(** The store's state and the selectors and helpers imported by the file. *)
Variable State : Type.
Variable currentSafeBalances : State -> PersistedBalances.
Variable tokensSelector : State -> gmap string Token.
Variable currentSafe : State -> option SafeRecord.
Variable getEthAsToken : string -> Token.
Variable sameAddress : option string -> option string -> bool.

(** [createSelector] of reselect, as the function it computes: the result
    function applied to what the input selectors select.  (Its cache,
    which skips the result function when the inputs are the very objects
    of the previous call, is not part of the model.) *)
Definition createSelector1 {A R : Type} (s1 : State -> A) (resultFunc : A -> R)
  : State -> R :=
  fun state => resultFunc (s1 state).

Definition createSelector3 {A B C R : Type}
  (s1 : State -> A) (s2 : State -> B) (s3 : State -> C) (resultFunc : A -> B -> C -> R)
  : State -> R :=
  fun state => resultFunc (s1 state) (s2 state) (s3 state).

Definition safeEthAsTokenSelector : State -> option Token :=
  createSelector1 currentSafe (fun safe =>
    match safe with
    | None => None
    | Some safe => Some (getEthAsToken (ethBalance safe))
    end).

(** The body of the [forEach] callback: [extendedTokens] after the visit
    of [safeBalance]. *)
Definition visitBalance (tokensList : gmap string Token) (ethAsToken : option Token)
  (extendedTokens : list Token) (safeBalance : SafeBalance) : list Token :=
  let tokenAddress := tokenAddress safeBalance in
  if negb (truthy tokenAddress) then extendedTokens
  else
    let baseToken :=
      if sameAddress tokenAddress (address <$> ethAsToken)
      then ethAsToken
      else match tokenAddress with
           | Some a => tokensList !! a
           | None => None
           end in
    match baseToken with
    | None => extendedTokens
    | Some baseToken =>
        let token := set_balance safeBalance baseToken in
        extendedTokens ++ [token]
    end.

Definition extendedSafeTokensSelector : State -> M Event (list Token) :=
  createSelector3 currentSafeBalances tokensSelector safeEthAsTokenSelector
    (fun safeBalances tokensList ethAsToken =>
       let extendedTokens := [] in
       if negb (isArray safeBalances)
       then
         run emit (SentryCaptureMessage
           "There was an error loading `safeBalances` in `extendedSafeTokensSelector`, probably safe loaded prior to v3.5.0");
         ret []
       else
         ret (fold_left (visitBalance tokensList ethAsToken) (elements safeBalances)
                extendedTokens)).

(** *** The merge, in the words of the specification *)

(** The known token that the address of a balance entry matches: the
    native-currency token when the address is the native one, the entry of
    the tokens map under that address otherwise.  An entry whose address
    is absent or empty matches no token. *)
Definition knownToken (tokensList : gmap string Token) (ethAsToken : option Token)
  (safeBalance : SafeBalance) : option Token :=
  match tokenAddress safeBalance with
  | None => None
  | Some a =>
      if truthyString a
      then if sameAddress (Some a) (address <$> ethAsToken)
           then ethAsToken
           else tokensList !! a
      else None
  end.

Definition matchesKnownToken (tokensList : gmap string Token) (ethAsToken : option Token)
  (safeBalance : SafeBalance) : bool :=
  match knownToken tokensList ethAsToken safeBalance with
  | Some _ => true
  | None => false
  end.

(** What a token record says about the token itself: every field but the
    balance. *)
Definition tokenMetadata (t : Token) : string * string * string * nat * string :=
  (address t, name t, symbol t, decimals t, logoUri t).

(** One record per balance entry that matches a known token, carrying the
    entry as its balance; the other entries are passed over. *)
Definition mergeBalances (tokensList : gmap string Token) (ethAsToken : option Token)
  (balances : list SafeBalance) : list Token :=
  omap (fun b => set_balance b <$> knownToken tokensList ethAsToken b) balances.

(** *** Properties *)

Lemma visitBalance_knownToken tokensList ethAsToken extendedTokens safeBalance :
  visitBalance tokensList ethAsToken extendedTokens safeBalance
  = extendedTokens
    ++ option_list (set_balance safeBalance <$> knownToken tokensList ethAsToken safeBalance).
Proof.
  unfold visitBalance, knownToken.
  destruct (tokenAddress safeBalance) as [[|c a]|]; simpl;
    try (symmetry; apply app_nil_r).
  destruct (sameAddress _ _).
  - destruct ethAsToken; simpl; [reflexivity | symmetry; apply app_nil_r].
  - destruct (tokensList !! String c a); simpl; [reflexivity | symmetry; apply app_nil_r].
Qed.

Lemma fold_visitBalance tokensList ethAsToken balances extendedTokens :
  fold_left (visitBalance tokensList ethAsToken) balances extendedTokens
  = extendedTokens ++ mergeBalances tokensList ethAsToken balances.
Proof.
  revert extendedTokens.
  induction balances as [|b balances IH]; intros extendedTokens; simpl.
  - symmetry. apply app_nil_r.
  - rewrite IH, visitBalance_knownToken. unfold mergeBalances. simpl.
    destruct (knownToken tokensList ethAsToken b); simpl.
    + rewrite <- app_assoc. reflexivity.
    + rewrite app_nil_r. reflexivity.
Qed.

Lemma mergeBalances_length tokensList ethAsToken balances :
  length (mergeBalances tokensList ethAsToken balances)
  = length (List.filter (matchesKnownToken tokensList ethAsToken) balances).
Proof.
  unfold mergeBalances, matchesKnownToken.
  induction balances as [|b balances IH]; simpl; [reflexivity|].
  destruct (knownToken tokensList ethAsToken b); simpl; [f_equal|]; exact IH.
Qed.

Lemma knownToken_known tokensList ethAsToken safeBalance t :
  knownToken tokensList ethAsToken safeBalance = Some t ->
  ethAsToken = Some t
  \/ exists a, tokenAddress safeBalance = Some a /\ tokensList !! a = Some t.
Proof.
  unfold knownToken.
  destruct (tokenAddress safeBalance) as [a|]; [|discriminate].
  destruct (truthyString a); [|discriminate].
  destruct (sameAddress _ _); [left; assumption | right; eauto].
Qed.

Lemma mergeBalances_balances tokensList ethAsToken balances :
  balance <$> mergeBalances tokensList ethAsToken balances
  = List.filter (matchesKnownToken tokensList ethAsToken) balances.
Proof.
  unfold mergeBalances, matchesKnownToken.
  induction balances as [|b balances IH]; [reflexivity|].
  cbn. destruct (knownToken tokensList ethAsToken b); cbn; [f_equal|]; exact IH.
Qed.

Lemma mergeBalances_metadata tokensList ethAsToken balances :
  tokenMetadata <$> mergeBalances tokensList ethAsToken balances
  = omap (fun b => tokenMetadata <$> knownToken tokensList ethAsToken b) balances.
Proof.
  unfold mergeBalances.
  induction balances as [|b balances IH]; [reflexivity|].
  cbn. destruct (knownToken tokensList ethAsToken b); cbn; [f_equal|]; exact IH.
Qed.

(** C3.  On an array of balances the selector returns, in the order of the
    array, one token record per entry whose address matches a known token
    -- the native-currency token or an entry of the tokens map -- with the
    record's balance set to the entry; entries that match no known token
    are passed over, and nothing is reported.  The balance fields of the
    records returned are exactly the matching entries, in order, and the
    other fields of each record are those of the known token its entry
    matches. *)
Theorem extendedSafeTokensSelector_merges (state : State) (balances : list SafeBalance) :
  currentSafeBalances state = BalancesArray balances ->
  let tokensList := tokensSelector state in
  let ethAsToken := safeEthAsTokenSelector state in
  extendedSafeTokensSelector state
    = ([], Returned (mergeBalances tokensList ethAsToken balances))
  /\ length (mergeBalances tokensList ethAsToken balances)
     = length (List.filter (matchesKnownToken tokensList ethAsToken) balances)
  /\ (forall i b, balances !! i = Some b ->
        match knownToken tokensList ethAsToken b with
        | Some t =>
            set_balance b t ∈ mergeBalances tokensList ethAsToken balances
            /\ (ethAsToken = Some t
                \/ exists a, tokenAddress b = Some a /\ tokensList !! a = Some t)
        | None => True
        end)
  /\ (exists tokens,
        extendedSafeTokensSelector state = ([], Returned tokens)
        /\ balance <$> tokens
           = List.filter (matchesKnownToken tokensList ethAsToken) balances
        /\ tokenMetadata <$> tokens
           = omap (fun b => tokenMetadata <$> knownToken tokensList ethAsToken b) balances
        /\ forall i b t,
             balances !! i = Some b ->
             knownToken tokensList ethAsToken b = Some t ->
             exists token,
               token ∈ tokens /\ balance token = b
               /\ tokenMetadata token = tokenMetadata t).
Proof.
  intros Hbal tokensList ethAsToken.
  assert (Hsel : extendedSafeTokensSelector state
                 = ([], Returned (mergeBalances tokensList ethAsToken balances))).
  { unfold extendedSafeTokensSelector, createSelector3. rewrite Hbal. simpl.
    rewrite fold_visitBalance. reflexivity. }
  split; [exact Hsel|]. split; [apply mergeBalances_length|]. split.
  - intros i b Hi. destruct (knownToken tokensList ethAsToken b) as [t|] eqn:E; [|exact I].
    split; [|exact (knownToken_known _ _ _ _ E)].
    unfold mergeBalances. apply list_elem_of_omap. exists b. split.
    + eapply list_elem_of_lookup_2. exact Hi.
    + rewrite E. reflexivity.
  - exists (mergeBalances tokensList ethAsToken balances).
    split; [exact Hsel|]. split; [apply mergeBalances_balances|].
    split; [apply mergeBalances_metadata|].
    intros i b t Hi E. exists (set_balance b t). split; [|split; reflexivity].
    unfold mergeBalances. apply list_elem_of_omap. exists b. split.
    + eapply list_elem_of_lookup_2. exact Hi.
    + rewrite E. reflexivity.
Qed.

(** C4.  When the persisted balances are not an array the selector
    returns the empty list and reports exactly one message to Sentry. *)
Theorem extendedSafeTokensSelector_not_array (state : State) :
  isArray (currentSafeBalances state) = false ->
  extendedSafeTokensSelector state
  = ([SentryCaptureMessage
        "There was an error loading `safeBalances` in `extendedSafeTokensSelector`, probably safe loaded prior to v3.5.0"],
     Returned []).
Proof.
  intros H. unfold extendedSafeTokensSelector, createSelector3. rewrite H. reflexivity.
Qed.

(** On an array nothing is reported. *)
Lemma extendedSafeTokensSelector_array_silent (state : State) :
  isArray (currentSafeBalances state) = true ->
  trace (extendedSafeTokensSelector state) = [].
Proof.
  intros H. unfold extendedSafeTokensSelector, createSelector3. rewrite H. reflexivity.
Qed.

(** *** The known coins *)

Definition createSelector2 {A B R : Type}
  (s1 : State -> A) (s2 : State -> B) (resultFunc : A -> B -> R) : State -> R :=
  fun state => resultFunc (s1 state) (s2 state).

(** [toList()] of an Immutable map: its values.  The order in which an
    Immutable map lists its values is not modelled; the properties below
    do not depend on it. *)
Definition toList (m : gmap string Token) : list Token := (map_to_list m).*2.

Definition safeKnownCoins : State -> list Token :=
  createSelector2 tokensSelector safeEthAsTokenSelector
    (fun safeTokens nativeCurrencyAsToken =>
       match nativeCurrencyAsToken with
       | Some nativeCurrencyAsToken =>
           toList (<[address nativeCurrencyAsToken := nativeCurrencyAsToken]> safeTokens)
       | None => toList safeTokens
       end).

Lemma elem_of_toList (m : gmap string Token) (t : Token) :
  t ∈ toList m <-> exists a, m !! a = Some t.
Proof.
  unfold toList. rewrite list_elem_of_fmap. split.
  - intros ([a t'] & -> & Hin). exists a. by apply elem_of_map_to_list.
  - intros (a & Ha). exists (a, t). split; [reflexivity|]. by apply elem_of_map_to_list.
Qed.



(** X16.  Every token the extended selector returns is a known coin with its
    balance replaced, provided [sameAddress] holds of an address and
    itself. *)
Theorem extendedSafeTokens_are_known_coins (state : State) (tokens : list Token) :
  (forall a, truthyString a = true -> sameAddress (Some a) (Some a) = true) ->
  outcome (extendedSafeTokensSelector state) = Returned tokens ->
  forall token, token ∈ tokens ->
    exists coin, coin ∈ safeKnownCoins state /\ token = set_balance (balance token) coin.
Proof.
  intros Hrefl Hout token Hin.
  unfold extendedSafeTokensSelector, createSelector3 in Hout.
  destruct (isArray (currentSafeBalances state)); cbn in Hout.
  2: { injection Hout as <-. by apply elem_of_nil in Hin. }
  injection Hout as <-. rewrite fold_visitBalance in Hin. cbn [app] in Hin.
  unfold mergeBalances in Hin. apply list_elem_of_omap in Hin as (b & _ & Hb).
  destruct (knownToken (tokensSelector state) (safeEthAsTokenSelector state) b)
    as [coin|] eqn:Hknown; [|discriminate Hb].
  cbn in Hb. injection Hb as <-.
  exists coin. split; [|reflexivity].
  unfold safeKnownCoins, createSelector2. unfold knownToken in Hknown.
  destruct (tokenAddress b) as [a|]; [|discriminate Hknown].
  destruct (truthyString a) eqn:Hta; [|discriminate Hknown].
  destruct (safeEthAsTokenSelector state) as [native|]; cbn [fmap option_fmap option_map] in Hknown.
  - destruct (sameAddress (Some a) (Some (address native))) eqn:Hsame.
    + injection Hknown as <-. apply elem_of_toList. exists (address native).
      apply lookup_insert_eq.
    + apply elem_of_toList. exists a. rewrite lookup_insert_ne; [exact Hknown|].
      intros <-. rewrite (Hrefl _ Hta) in Hsame. discriminate Hsame.
  - destruct (sameAddress (Some a) None); [discriminate Hknown|].
    apply elem_of_toList. eauto.
Qed.

Lemma mergeBalances_sublist tokensList ethAsToken balances :
  balance <$> mergeBalances tokensList ethAsToken balances `sublist_of` balances.
Proof.
  unfold mergeBalances.
  induction balances as [|b balances IH]; [constructor|].
  cbn. destruct (knownToken tokensList ethAsToken b); cbn.
  - by apply sublist_skip.
  - by apply sublist_cons.
Qed.

(** X17.  The balances carried by the tokens the extended selector returns are
    entries of the persisted array, in the array's order and each used by
    at most one token per occurrence; every one of them has a non-empty
    token address.  So the selector never returns more tokens than there
    are entries. *)
Theorem extendedSafeTokens_balances_sublist (state : State) (tokens : list Token) :
  outcome (extendedSafeTokensSelector state) = Returned tokens ->
  balance <$> tokens `sublist_of` elements (currentSafeBalances state)
  /\ Forall (fun token => truthy (tokenAddress (balance token)) = true) tokens
  /\ length tokens <= length (elements (currentSafeBalances state)).
Proof.
  intros Hout.
  unfold extendedSafeTokensSelector, createSelector3 in Hout.
  assert (Hsub : balance <$> tokens `sublist_of` elements (currentSafeBalances state)).
  { destruct (isArray (currentSafeBalances state)); cbn in Hout; injection Hout as <-.
    - rewrite fold_visitBalance. apply mergeBalances_sublist.
    - apply sublist_nil_l. }
  split; [exact Hsub|]. split.
  - destruct (isArray (currentSafeBalances state)); cbn in Hout; injection Hout as <-;
      [|constructor].
    rewrite fold_visitBalance. cbn [app]. apply Forall_forall. intros token Hin.
    unfold mergeBalances in Hin. apply list_elem_of_omap in Hin as (b & _ & Hb).
    unfold knownToken in Hb.
    destruct (tokenAddress b) as [a|] eqn:Ha; [|discriminate Hb].
    destruct (truthyString a) eqn:Hta; [|discriminate Hb].
    destruct (if sameAddress (Some a) (address <$> safeEthAsTokenSelector state)
              then safeEthAsTokenSelector state else tokensSelector state !! a);
      [|discriminate Hb].
    cbn in Hb. injection Hb as <-. cbn. rewrite Ha. exact Hta.
  - apply sublist_length in Hsub. rewrite length_fmap in Hsub. exact Hsub.
Qed.

End WithEnvironment.

(** *** A store to run the selector on *)

Module Fixture.

Record State := mkState {
  balances : PersistedBalances;
  tokens : gmap string Token;
  safe : option SafeRecord
}.

Definition lowerAscii (c : ascii) : ascii :=
  let n := nat_of_ascii c in
  if ((65 <=? n) && (n <=? 90))%nat then ascii_of_nat (n + 32) else c.

Fixpoint toLowerCase (s : string) : string :=
  match s with
  | EmptyString => EmptyString
  | String c s' => String (lowerAscii c) (toLowerCase s')
  end.

(** Addresses are the same when both are present and equal up to case. *)
Definition sameAddress (firstAddress secondAddress : option string) : bool :=
  match firstAddress, secondAddress with
  | Some a, Some b =>
      truthyString a && truthyString b && String.eqb (toLowerCase a) (toLowerCase b)
  | _, _ => false
  end.

Definition getEthAsToken (balance : string) : Token :=
  mkToken "0x0000000000000000000000000000000000000000" "Ether" "ETH" 18 ""
    (mkBalance None balance None).

Definition dai : Token :=
  mkToken "0x5592EC0cfb4dbc12D3aB100b257153436a1f0FEa" "Dai" "DAI" 18 "dai.png"
    (mkBalance None "0" None).

Definition ethEntry : SafeBalance :=
  mkBalance (Some "0x0000000000000000000000000000000000000000") "1500" (Some "3000.00").

Definition daiEntry : SafeBalance :=
  mkBalance (Some "0x5592EC0cfb4dbc12D3aB100b257153436a1f0FEa") "42" (Some "42.00").

Definition unknownEntry : SafeBalance :=
  mkBalance (Some "0xc778417E063141139Fce010982780140Aa0cD5Ab") "7" None.

Definition addresslessEntry : SafeBalance := mkBalance None "9" None.

Definition loadedState : State :=
  mkState (BalancesArray [ethEntry; unknownEntry; daiEntry; addresslessEntry; daiEntry])
    (<[address dai := dai]> ∅)
    (Some (mkSafe "0x57CB13cbef735FbDD65f5f2866638c546464E45F" "1500")).

(** A safe persisted before v3.5.0. *)
Definition legacyState : State :=
  mkState (BalancesObject (<["0x5592EC0cfb4dbc12D3aB100b257153436a1f0FEa" := "42"]> ∅))
    (<[address dai := dai]> ∅)
    (Some (mkSafe "0x57CB13cbef735FbDD65f5f2866638c546464E45F" "1500")).

Definition extendedSafeTokensSelector : State -> M Event (list Token) :=
  SafeSelectors.extendedSafeTokensSelector State balances tokens safe getEthAsToken sameAddress.

End Fixture.

Example extendedSafeTokens_loaded :
  Fixture.extendedSafeTokensSelector Fixture.loadedState
  = ([], Returned
      [ mkToken "0x0000000000000000000000000000000000000000" "Ether" "ETH" 18 ""
          (mkBalance (Some "0x0000000000000000000000000000000000000000") "1500"
             (Some "3000.00"));
        mkToken "0x5592EC0cfb4dbc12D3aB100b257153436a1f0FEa" "Dai" "DAI" 18 "dai.png"
          (mkBalance (Some "0x5592EC0cfb4dbc12D3aB100b257153436a1f0FEa") "42"
             (Some "42.00"));
        mkToken "0x5592EC0cfb4dbc12D3aB100b257153436a1f0FEa" "Dai" "DAI" 18 "dai.png"
          (mkBalance (Some "0x5592EC0cfb4dbc12D3aB100b257153436a1f0FEa") "42"
             (Some "42.00")) ]).
Proof. vm_compute. reflexivity. Qed.

Lemma extendedSafeTokensSelector_merges_witness :
  exists tokens,
    Fixture.extendedSafeTokensSelector Fixture.loadedState = ([], Returned tokens)
    /\ balance <$> tokens = [Fixture.ethEntry; Fixture.daiEntry; Fixture.daiEntry]
    /\ tokenMetadata <$> tokens
       = [tokenMetadata (Fixture.getEthAsToken "1500"); tokenMetadata Fixture.dai;
          tokenMetadata Fixture.dai].
Proof.
  destruct (proj2 (proj2 (proj2
              (extendedSafeTokensSelector_merges Fixture.State Fixture.balances
                 Fixture.tokens Fixture.safe Fixture.getEthAsToken Fixture.sameAddress
                 Fixture.loadedState _ eq_refl))))
    as (tokens & Hsel & Hbal & Hmeta & _).
  exists tokens. split; [exact Hsel|]. split.
  - etransitivity; [exact Hbal|]. vm_compute. reflexivity.
  - etransitivity; [exact Hmeta|]. vm_compute. reflexivity.
Defined.

Lemma extendedSafeTokensSelector_not_array_witness :
  Fixture.extendedSafeTokensSelector Fixture.legacyState
  = ([SentryCaptureMessage
        "There was an error loading `safeBalances` in `extendedSafeTokensSelector`, probably safe loaded prior to v3.5.0"],
     Returned []).
Proof.
  exact (extendedSafeTokensSelector_not_array Fixture.State Fixture.balances Fixture.tokens
           Fixture.safe Fixture.getEthAsToken Fixture.sameAddress Fixture.legacyState eq_refl).
Defined.

(** *** The known coins on the fixture store *)

Lemma fixture_sameAddress_refl (a : string) :
  truthyString a = true -> Fixture.sameAddress (Some a) (Some a) = true.
Proof.
  intros H. unfold Fixture.sameAddress. rewrite H. cbn [andb].
  apply String.eqb_refl.
Qed.

Definition fixtureKnownCoins : Fixture.State -> list Token :=
  safeKnownCoins Fixture.State Fixture.tokens Fixture.safe Fixture.getEthAsToken.

Example safeKnownCoins_loaded :
  fixtureKnownCoins Fixture.loadedState ≡ₚ [Fixture.getEthAsToken "1500"; Fixture.dai].
Proof.
  assert (E : fixtureKnownCoins Fixture.loadedState
              = [Fixture.getEthAsToken "1500"; Fixture.dai]
              \/ fixtureKnownCoins Fixture.loadedState
              = [Fixture.dai; Fixture.getEthAsToken "1500"]).
  { vm_compute. first [left; reflexivity | right; reflexivity]. }
  destruct E as [-> | ->]; [reflexivity | apply perm_swap].
Qed.


Lemma extendedSafeTokens_are_known_coins_witness :
  exists coin,
    coin ∈ fixtureKnownCoins Fixture.loadedState
    /\ set_balance Fixture.daiEntry Fixture.dai
       = set_balance (balance (set_balance Fixture.daiEntry Fixture.dai)) coin.
Proof.
  apply (extendedSafeTokens_are_known_coins Fixture.State Fixture.balances Fixture.tokens
           Fixture.safe Fixture.getEthAsToken Fixture.sameAddress Fixture.loadedState
           [ set_balance Fixture.ethEntry (Fixture.getEthAsToken "1500");
             set_balance Fixture.daiEntry Fixture.dai;
             set_balance Fixture.daiEntry Fixture.dai ]).
  - exact fixture_sameAddress_refl.
  - vm_compute. reflexivity.
  - apply list_elem_of_further, list_elem_of_here.
Defined.

Lemma extendedSafeTokens_balances_sublist_witness :
  [Fixture.ethEntry; Fixture.daiEntry; Fixture.daiEntry]
    `sublist_of` [Fixture.ethEntry; Fixture.unknownEntry; Fixture.daiEntry;
                  Fixture.addresslessEntry; Fixture.daiEntry].
Proof.
  exact (proj1 (extendedSafeTokens_balances_sublist Fixture.State Fixture.balances
                  Fixture.tokens Fixture.safe Fixture.getEthAsToken Fixture.sameAddress
                  Fixture.loadedState
                  [ set_balance Fixture.ethEntry (Fixture.getEthAsToken "1500");
                    set_balance Fixture.daiEntry Fixture.dai;
                    set_balance Fixture.daiEntry Fixture.dai ]
                  eq_refl)).
Defined.

End SafeSelectors.
